(** * flights-by-country: the flight-schedule acquisition pipeline

    A shallow embedding of [app/services/flight_api_client.py] (the timestamp
    rule, the record normalizer, the single-direction fetcher and the
    two-direction aggregation) and of the airport allow-list of [app/main.py],
    together with the properties of the pipeline.

    Python values decoded from the provider's JSON are the inductive [pyval];
    a Python call that may raise lives in the error monad [exc]; [print]
    calls have no effect on any value and are left out. *)

From Stdlib Require Import ZArith Lia Bool String Ascii List DecimalString.
From Stdlib Require Import Floats.PrimFloat Floats.FloatOps Floats.SpecFloat.
From stdpp Require Import base tactics option list strings.
Import ListNotations.

Local Open Scope string_scope.
Local Open Scope Z_scope.

(** ** Python values and exceptions *)

Module Py.

#[local] Set Warnings "-register-all".

(** What [json.loads] (behind [response.json()]) can produce.  JSON object keys
    are always strings; a [dict] keeps its insertion order, so it is an
    association list. *)
Inductive pyval : Type :=
| PNone
| PBool (b : bool)
| PInt (n : Z)
| PFloat (f : float)
| PStr (s : string)
| PList (items : list pyval)
| PDict (entries : list (string * pyval)).

(** The exception classes that occur in the pipeline.  All of them derive
    from [Exception] except [CancelledError], which derives from
    [BaseException] only. *)
Inductive exn : Type :=
| AttributeError
| TypeError
| ValueError
| KeyError
| OverflowError
| OSError
| TimeoutError
| ClientConnectionError
| ClientResponseError
| ContentTypeError
| JSONDecodeError
| CancelledError.

(** [isinstance(e, Exception)] *)
Definition is_Exception (e : exn) : bool :=
  match e with
  | CancelledError => false
  | _ => true
  end.

(** The outcome of evaluating a Python expression: a value, or a raised
    exception. *)
Inductive exc (A : Type) : Type :=
| Ok (a : A)
| Raise (e : exn).
Arguments Ok {A} a.
Arguments Raise {A} e.

#[export] Instance exc_ret : MRet exc := fun A a => Ok a.
#[export] Instance exc_bind : MBind exc := fun A B k m =>
  match m with
  | Ok a => k a
  | Raise e => Raise e
  end.

Definition raises {A} (m : exc A) : bool :=
  match m with
  | Ok _ => false
  | Raise _ => true
  end.

(** [bool(v)]: the truth value Python gives [v] in [if v] and [x if v else y]. *)
Definition truthy (v : pyval) : bool :=
  match v with
  | PNone => false
  | PBool b => b
  | PInt n => negb (Z.eqb n 0)
  | PFloat f => negb (PrimFloat.eqb f 0%float)
  | PStr s => negb (String.eqb s "")
  | PList items => match items with [] => false | _ => true end
  | PDict entries => match entries with [] => false | _ => true end
  end.

(** The literal [{}]. *)
Definition empty_dict : pyval := PDict [].

Fixpoint dict_lookup (key : string) (entries : list (string * pyval)) : option pyval :=
  match entries with
  | [] => None
  | (k, v) :: rest => if String.eqb k key then Some v else dict_lookup key rest
  end.

(** [o.get(key, default)].  Only a [dict] has the method; on any other value
    the attribute lookup raises [AttributeError]. *)
Definition py_get (o : pyval) (key : string) (dflt : pyval) : exc pyval :=
  match o with
  | PDict entries => Ok (default dflt (dict_lookup key entries))
  | _ => Raise AttributeError
  end.

(** [key in o] for a string [key].  A [dict] tests its keys, a [list] its
    elements (only a [str] element can equal a [str]), a [str] tests for a
    substring; the other values are not containers. *)
Definition py_contains (key : string) (o : pyval) : exc bool :=
  match o with
  | PDict entries => Ok (match dict_lookup key entries with Some _ => true | None => false end)
  | PList items =>
      Ok (existsb (fun v => match v with PStr s => String.eqb s key | _ => false end) items)
  | PStr s => Ok (match String.index 0 key s with Some _ => true | None => false end)
  | _ => Raise TypeError
  end.

(** [o[key]] for a string [key]: [KeyError] cannot occur where the pipeline
    subscripts (the key was just found), a [list] or [str] refuses a string
    index. *)
Definition py_getitem (o : pyval) (key : string) : exc pyval :=
  match o with
  | PDict entries =>
      match dict_lookup key entries with
      | Some v => Ok v
      | None => Raise KeyError
      end
  | _ => Raise TypeError
  end.

(** [len(o)] *)
Definition py_len (o : pyval) : exc nat :=
  match o with
  | PDict entries => Ok (length entries)
  | PList items => Ok (length items)
  | PStr s => Ok (String.length s)
  | _ => Raise TypeError
  end.

(** [for item in o]: the items the loop visits.  A [dict] yields its keys, a
    [str] its characters. *)
Definition py_iter (o : pyval) : exc (list pyval) :=
  match o with
  | PDict entries => Ok (map (fun kv => PStr (fst kv)) entries)
  | PList items => Ok items
  | PStr s => Ok (map (fun c => PStr (String c EmptyString)) (list_ascii_of_string s))
  | _ => Raise TypeError
  end.

(** [d[key] = v] on the entries of a [dict]: an existing key keeps its place. *)
Fixpoint dict_set (key : string) (v : pyval) (entries : list (string * pyval))
  : list (string * pyval) :=
  match entries with
  | [] => [(key, v)]
  | (k, w) :: rest =>
      if String.eqb k key then (k, v) :: rest else (k, w) :: dict_set key v rest
  end.

(** [d.update(other)] *)
Definition dict_update (entries other : list (string * pyval)) : list (string * pyval) :=
  fold_left (fun acc kv => dict_set (fst kv) (snd kv) acc) other entries.

End Py.
Import Py.

(** ** [datetime.fromtimestamp(ts, tz=timezone.utc)] and [strftime] *)

Module DateTime.

Record datetime : Type := mk_datetime
  { year : Z; month : Z; day : Z; hour : Z; minute : Z; second : Z }.

(** The platform's [time_t] is a signed 64-bit integer. *)
Definition time_t_min : Z := - 2 ^ 63.
Definition time_t_max : Z := 2 ^ 63 - 1.

Definition time_t_of_int (n : Z) : exc Z :=
  if (time_t_min <=? n) && (n <=? time_t_max) then Ok n else Raise OverflowError.

(** C's [modf]: the integral part (here as an integer) and the fractional
    part, both with the sign of the argument. *)
Definition modf (f : float) : exc (Z * float) :=
  match Prim2SF f with
  | S754_nan => Raise ValueError
  | S754_infinity _ => Raise OverflowError
  | S754_zero _ => Ok (0, 0%float)
  | S754_finite s m e =>
      let sgn := fun x : Z => if s then - x else x in
      if 0 <=? e then Ok (sgn (Z.pos m * 2 ^ e), 0%float)
      else
        let q := Z.pos m / 2 ^ (- e) in
        let r := Z.pos m mod 2 ^ (- e) in
        Ok (sgn q,
            SF2Prim (match r with
                     | Z.pos r' => S754_finite s r' e
                     | _ => S754_zero s
                     end))
  end.

(** Rounding to the nearest integer, ties to even. *)
Definition round_half_even (f : float) : Z :=
  match Prim2SF f with
  | S754_finite s m e =>
      let n :=
        if 0 <=? e then Z.pos m * 2 ^ e
        else
          let q := Z.pos m / 2 ^ (- e) in
          let r := Z.pos m mod 2 ^ (- e) in
          let half := 2 ^ (- e - 1) in
          if (half <? r) || ((r =? half) && Z.odd q) then q + 1 else q in
      if s then - n else n
  | _ => 0
  end.

(** A float timestamp is split into whole seconds and microseconds, the
    microseconds rounded half-even; a carry moves into the seconds.  The
    range of [time_t] is tested in double precision, where its upper bound
    rounds up to [2 ^ 63]. *)
Definition time_t_of_float (f : float) : exc Z :=
  parts ← modf f;
  let us := round_half_even (PrimFloat.mul (snd parts) 1000000%float) in
  let intpart :=
    if 1000000 <=? us then fst parts + 1
    else if us <? 0 then fst parts - 1
    else fst parts in
  if (time_t_min <=? intpart) && (intpart <=? time_t_max + 1)
  then Ok intpart else Raise OverflowError.

Definition days_before_month (m : Z) : Z :=
  match m with
  | 1 => 0 | 2 => 31 | 3 => 59 | 4 => 90 | 5 => 120 | 6 => 151
  | 7 => 181 | 8 => 212 | 9 => 243 | 10 => 273 | 11 => 304 | 12 => 334
  | _ => 0
  end.

Definition days_in_month (m : Z) : Z :=
  match m with
  | 2 => 28
  | 4 | 6 | 9 | 11 => 30
  | _ => 31
  end.

(** Proleptic Gregorian ordinal (day 1 is 0001-01-01) to year, month, day. *)
Definition ord2ymd (ordinal : Z) : Z * Z * Z :=
  let n := ordinal - 1 in
  let n400 := n / 146097 in
  let n := n mod 146097 in
  let n100 := n / 36524 in
  let n := n mod 36524 in
  let n4 := n / 1461 in
  let n := n mod 1461 in
  let n1 := n / 365 in
  let n := n mod 365 in
  let y := n400 * 400 + 1 + n100 * 100 + n4 * 4 + n1 in
  if (n1 =? 4) || (n100 =? 4) then (y - 1, 12, 31)
  else
    let leapyear := (n1 =? 3) && (negb (n4 =? 24) || (n100 =? 3)) in
    let m := Z.shiftr (n + 50) 5 in
    let preceding := days_before_month m + (if (2 <? m) && leapyear then 1 else 0) in
    if n <? preceding then
      let m' := m - 1 in
      let preceding' :=
        preceding - (days_in_month m' + (if (m' =? 2) && leapyear then 1 else 0)) in
      (y, m', n - preceding' + 1)
    else (y, m, n - preceding + 1).

(** Ordinal of 1970-01-01. *)
Definition epoch_ordinal : Z := 719163.

(** The C library's [gmtime_r] fails once the year leaves the range of
    [int]. *)
Definition gmtime (t : Z) : exc datetime :=
  if (-67768040609740800 <=? t) && (t <=? 67768036191676799) then
    let '(y, m, d) := ord2ymd (t / 86400 + epoch_ordinal) in
    let s := t mod 86400 in
    Ok (mk_datetime y m d (s / 3600) (s mod 3600 / 60) (s mod 60))
  else Raise OSError.

(** [datetime.fromtimestamp(ts, tz=timezone.utc)]: the timestamp must be a
    number, must fit [time_t], and the year must lie in 1..9999. *)
Definition fromtimestamp_utc (ts : pyval) : exc datetime :=
  t ← match ts with
      | PInt n => time_t_of_int n
      | PBool b => time_t_of_int (if b then 1 else 0)
      | PFloat f => time_t_of_float f
      | _ => Raise TypeError
      end;
  dt ← gmtime t;
  if (1 <=? year dt) && (year dt <=? 9999) then Ok dt else Raise ValueError.

Definition decimal (n : Z) : string := NilZero.string_of_int (Z.to_int n).

Definition two_digits (n : Z) : string :=
  decimal (n / 10) ++ decimal (n mod 10).

(** [dt.strftime('%Y-%m-%d %H:%M:%S %Z')] for an aware datetime in UTC.  The
    C library prints [%Y] without padding (only years below 1000 are shorter
    than four digits); [%Z] is the zone name [UTC]. *)
Definition strftime (dt : datetime) : string :=
  decimal (year dt) ++ "-" ++ two_digits (month dt) ++ "-" ++ two_digits (day dt)
  ++ " " ++ two_digits (hour dt) ++ ":" ++ two_digits (minute dt) ++ ":"
  ++ two_digits (second dt) ++ " UTC".

End DateTime.

(** ** [app/services/flight_api_client.py] *)

(** [convert_timestamp]: [strftime] of the UTC datetime when [ts] is truthy,
    [None] otherwise. *)
Definition convert_timestamp (ts : pyval) : exc pyval :=
  if truthy ts then
    dt ← DateTime.fromtimestamp_utc ts;
    Ok (PStr (DateTime.strftime dt))
  else Ok PNone.

(** The body of the [try] block of [simplify_flight_data] for one raw record:
    the record built for [flight], or the exception some lookup raised. *)
Definition simplify_flight (flight_type : string) (flight : pyval) : exc pyval :=
  identification ← py_get flight "identification" empty_dict;
  airline_info ← py_get flight "airline" empty_dict;
  status_info ← py_get flight "status" empty_dict;
  aircraft_info ← py_get flight "aircraft" empty_dict;
  airport_info ← py_get flight "airport" empty_dict;
  time_info ← py_get flight "time" empty_dict;
  number ← py_get identification "number" empty_dict;
  flightNumber ← py_get number "default" PNone;
  airline ← (if truthy airline_info then py_get airline_info "name" PNone else Ok PNone);
  status ← py_get status_info "text" PNone;
  model ← py_get aircraft_info "model" empty_dict;
  aircraftModel ← py_get model "text" PNone;
  let record :=
    [ ("type", PStr flight_type);
      ("flightNumber", flightNumber);
      ("airline", airline);
      ("status", status);
      ("aircraftModel", aircraftModel) ] in
  if String.eqb flight_type "arrival" then
    origin ← py_get airport_info "origin" empty_dict;
    origin_position ← py_get origin "position" empty_dict;
    origin_region ← (if truthy origin_position
                     then py_get origin_position "region" empty_dict else Ok empty_dict);
    origin_country ← (if truthy origin_position
                      then py_get origin_position "country" empty_dict else Ok empty_dict);
    originAirport ← py_get origin "name" PNone;
    originCity ← (if truthy origin_region then py_get origin_region "city" PNone else Ok PNone);
    originCountry ← (if truthy origin_country
                     then py_get origin_country "name" PNone else Ok PNone);
    scheduled ← py_get time_info "scheduled" empty_dict;
    arrival ← py_get scheduled "arrival" PNone;
    scheduledTime ← convert_timestamp arrival;
    Ok (PDict (dict_update record
                 [ ("originAirport", originAirport);
                   ("originCity", originCity);
                   ("originCountry", originCountry);
                   ("scheduledTime", scheduledTime) ]))
  else
    destination ← py_get airport_info "destination" empty_dict;
    destination_position ← py_get destination "position" empty_dict;
    destination_region ← (if truthy destination_position
                          then py_get destination_position "region" empty_dict
                          else Ok empty_dict);
    destination_country ← (if truthy destination_position
                           then py_get destination_position "country" empty_dict
                           else Ok empty_dict);
    destinationAirport ← py_get destination "name" PNone;
    destinationCity ← (if truthy destination_region
                       then py_get destination_region "city" PNone else Ok PNone);
    destinationCountry ← (if truthy destination_country
                          then py_get destination_country "name" PNone else Ok PNone);
    scheduled ← py_get time_info "scheduled" empty_dict;
    departure ← py_get scheduled "departure" PNone;
    scheduledTime ← convert_timestamp departure;
    Ok (PDict (dict_update record
                 [ ("destinationAirport", destinationAirport);
                   ("destinationCity", destinationCity);
                   ("destinationCountry", destinationCountry);
                   ("scheduledTime", scheduledTime) ])).

(** [simplify_flight_data]: the loop over [flights], one iteration being
    [simplify_step].  A record whose [try] block raises is skipped by the
    [except Exception] handler ([continue]); no lookup raises anything but an
    [Exception].  The handler itself only prints, guarding [flight.keys()] by
    [isinstance(flight, dict)]. *)
Definition simplify_step (flight_type : string) (simplified_flights : list pyval)
    (flight : pyval) : list pyval :=
  match simplify_flight flight_type flight with
  | Ok record => (simplified_flights ++ [record])%list
  | Raise _ => simplified_flights
  end.

Definition simplify_flight_data (flights : list pyval) (flight_type : string) : list pyval :=
  fold_left (simplify_step flight_type) flights [].

(** *** The upstream call *)

(** The response object of [session.get]: its status and what
    [response.json()] gives (the decoded body, or the decoder's exception). *)
Record response : Type := mk_response
  { status : Z;
    json : exc pyval }.

(** What [session.get(url, params=params)] gives: a response, or a transport
    exception ([aiohttp.ClientError], a timeout). *)
Definition upstream : Type := exc response.

(** [response.raise_for_status()]: aiohttp raises [ClientResponseError] for a
    status of 400 and above. *)
Definition raise_for_status (r : response) : exc unit :=
  if 400 <=? status r then Raise ClientResponseError else Ok tt.

(** The loop over [schedule_data]: an item with a truthy [flight] entry
    contributes it, any other [dict] is reported and skipped. *)
Definition extract_flights (schedule_data : list pyval) : exc (list pyval) :=
  foldl
    (fun acc item =>
       flights_list ← acc;
       flight ← py_get item "flight" PNone;
       if truthy flight then Ok (flights_list ++ [flight])%list else Ok flights_list)
    (Ok []) schedule_data.

(** The [try] block of [fetch_schedule]: the value that [res] holds when the
    block is left without an exception.  The early [return []] of the
    provider-error branch leaves [res] at its initial [[]], and it is [res]
    that the [finally] clause returns. *)
Definition fetch_schedule_try (reply : upstream) (flight_type : string) : exc (list pyval) :=
  let api_mode := if String.eqb flight_type "arrival" then "arrivals" else "departures" in
  resp ← reply;
  _ ← raise_for_status resp;
  data ← json resp;
  has_error ← py_contains "error" data;
  if has_error : bool then
    _ ← py_getitem data "error";
    Ok []
  else
    airport ← py_get data "airport" empty_dict;
    plugin_data ← py_get airport "pluginData" empty_dict;
    schedule ← py_get plugin_data "schedule" empty_dict;
    direction ← py_get schedule api_mode empty_dict;
    schedule_data ← py_get direction "data" (PList []);
    _ ← py_len schedule_data;
    items ← py_iter schedule_data;
    flights_list ← extract_flights items;
    Ok (simplify_flight_data flights_list flight_type).

(** [fetch_schedule]: whatever happens in the [try] block, the [finally]
    clause returns [res], which is [[]] unless the block ran to its end. *)
Definition fetch_schedule (reply : upstream) (flight_type : string) : list pyval :=
  match fetch_schedule_try reply flight_type with
  | Ok res => res
  | Raise _ => []
  end.

(** The loop of [get_flight_data] over the results of
    [asyncio.gather] (called with [return_exceptions=True]): a result that is an
    [Exception] is reported and skipped, a list extends [all_flights]; a
    result that is neither (a [BaseException]) is not iterable. *)
Definition merge_results (results : list (exc (list pyval))) : exc (list pyval) :=
  foldl
    (fun acc result =>
       all_flights ← acc;
       match result with
       | Ok flights => Ok (all_flights ++ flights)%list
       | Raise e => if is_Exception e then Ok all_flights else Raise TypeError
       end)
    (Ok []) results.

(** The provider, as seen by one aggregation round: the reply to the request
    with parameters [mode] and [iata]. *)
Definition provider : Type := string -> string -> upstream.

(** The coroutine [get_flight_data] without its cache decorator. *)
Definition get_flight_data (api : provider) (airport_code : string) : exc (list pyval) :=
  let tasks :=
    [ fetch_schedule (api "arrivals" airport_code) "arrival";
      fetch_schedule (api "departures" airport_code) "departure" ] in
  merge_results (map Ok tasks).

(** The requests one aggregation round sends upstream, as (mode, iata): one
    per direction, arrivals first. *)
Definition round_requests (airport_code : string) : list (string * string) :=
  [ ("arrivals", airport_code); ("departures", airport_code) ].

(** ** [app/main.py]: the airport allow-list of [ask_question] *)

Module Main.

Definition valid_airports : list string :=
  [ "DXB"; "LHR"; "CDG"; "SIN"; "HKG"; "AMS" ].

(** [request.airport in valid_airports]; a code outside the set is answered
    with status 400 and never reaches [get_flight_data]. *)
Definition accepted (airport : string) : bool :=
  existsb (String.eqb airport) valid_airports.

End Main.

(** ** The cache in front of [get_flight_data]

    Modelled from the spec: the decorator [alru_cache] comes from the package
    async_lru, which is not part of the sources.  The module follows sections
    3 and 4.3 of the design (an entry per airport key with its creation time,
    a time to live, a bounded number of keys with least-recently-used
    eviction); the sources give the decorator's arguments and the function
    it wraps.  Time is an argument of each call. *)

Module Cache.

(** The arguments of the decorator, [@alru_cache(maxsize=12, ttl=600)]. *)
Definition maxsize : nat := 12.
Definition ttl : Z := 600.

Record CacheEntry : Type := mk_entry
  { value : list pyval;
    created : Z }.

(** The entries in order of use, the least recently used first, and the log
    of the requests sent upstream so far. *)
Record state : Type := mk_state
  { entries : list (string * CacheEntry);
    requests : list (string * string) }.

Definition empty : state := mk_state [] [].

(** The decorator keys an entry by the argument of the call. *)
Definition cache_key (airport_code : string) : string := airport_code.

Definition fresh (now : Z) (e : CacheEntry) : bool := now <? created e + ttl.

Definition unexpired (now : Z) (es : list (string * CacheEntry)) : list (string * CacheEntry) :=
  filter (fun kv => fresh now (snd kv) = true) es.

Fixpoint lookup (key : string) (es : list (string * CacheEntry)) : option CacheEntry :=
  match es with
  | [] => None
  | (k, e) :: rest => if String.eqb k key then Some e else lookup key rest
  end.

Definition remove (key : string) (es : list (string * CacheEntry)) : list (string * CacheEntry) :=
  filter (fun kv => String.eqb (fst kv) key = false) es.

(** Beyond [maxsize] entries the least recently used one goes. *)
Definition evict (es : list (string * CacheEntry)) : list (string * CacheEntry) :=
  if (maxsize <? length es)%nat then tail es else es.

(** Modelled from the spec: the cached [get_flight_data], section 4.3.  A
    call at time [now] with an unexpired entry returns the stored sequence
    and sends nothing upstream; otherwise it runs one aggregation round of
    [get_flight_data], stores the result under the key with [now] as
    creation time, and returns it.  Entries live [ttl] seconds from creation;
    at most [maxsize] keys are kept, the least recently used is dropped
    first. *)
Definition getFlights (api : provider) (now : Z) (airport_code : string) (st : state)
  : exc (list pyval) * state :=
  let key := cache_key airport_code in
  let live := unexpired now (entries st) in
  match lookup key live with
  | Some e =>
      (Ok (value e), mk_state (remove key live ++ [(key, e)]) (requests st))
  | None =>
      let sent := (requests st ++ round_requests airport_code)%list in
      match get_flight_data api airport_code with
      | Ok flights =>
          (Ok flights, mk_state (evict (live ++ [(key, mk_entry flights now)])) sent)
      | Raise e => (Raise e, mk_state live sent)
      end
  end.

(** How often the log holds the request of [mode] for [airport_code]. *)
Definition sent_for (mode airport_code : string) (log : list (string * string)) : nat :=
  length (filter (fun r => r = (mode, airport_code)) log).

End Cache.

(** ** The optional-chained reading of a raw record

    Section 4.2 of the design describes the normalizer through
    optional-chained lookups.  [optional_path] is that reading: it walks a
    path of keys and gives up, without an error, at a missing key or at a
    value that is not an object. *)

Fixpoint optional_path (path : list string) (v : pyval) : option pyval :=
  match path with
  | [] => Some v
  | key :: rest =>
      match v with
      | PDict entries =>
          match dict_lookup key entries with
          | Some w => optional_path rest w
          | None => None
          end
      | _ => None
      end
  end.

(** The field read at [path], [None] (JSON null) when the path is absent. *)
Definition field_or_null (path : list string) (flight : pyval) : pyval :=
  default PNone (optional_path path flight).
Arguments field_or_null : simpl never.

(** The FlightRecord of the data model for a raw record, given the converted
    schedule time. *)
Definition flight_record (flight_type : string) (flight scheduledTime : pyval) : pyval :=
  PDict
    ([ ("type", PStr flight_type);
       ("flightNumber", field_or_null ["identification"; "number"; "default"] flight);
       ("airline", field_or_null ["airline"; "name"] flight);
       ("status", field_or_null ["status"; "text"] flight);
       ("aircraftModel", field_or_null ["aircraft"; "model"; "text"] flight) ]
     ++ (if String.eqb flight_type "arrival" then
           [ ("originAirport", field_or_null ["airport"; "origin"; "name"] flight);
             ("originCity",
               field_or_null ["airport"; "origin"; "position"; "region"; "city"] flight);
             ("originCountry",
               field_or_null ["airport"; "origin"; "position"; "country"; "name"] flight);
             ("scheduledTime", scheduledTime) ]
         else
           [ ("destinationAirport", field_or_null ["airport"; "destination"; "name"] flight);
             ("destinationCity",
               field_or_null ["airport"; "destination"; "position"; "region"; "city"] flight);
             ("destinationCountry",
               field_or_null ["airport"; "destination"; "position"; "country"; "name"] flight);
             ("scheduledTime", scheduledTime) ]))%list.

(** The source timestamp of a raw record, by direction. *)
Definition scheduled_path (flight_type : string) : list string :=
  [ "time"; "scheduled"; if String.eqb flight_type "arrival" then "arrival" else "departure" ].

(** A raw record that carries none of the six optional sub-objects. *)
Definition lacks_optional_keys (entries : list (string * pyval)) : Prop :=
  Forall (fun key => dict_lookup key entries = None)
    [ "identification"; "airline"; "status"; "aircraft"; "airport"; "time" ].

(** The record with every optional field null. *)
Definition blank_record (flight_type : string) : pyval :=
  PDict
    ([ ("type", PStr flight_type);
       ("flightNumber", PNone); ("airline", PNone); ("status", PNone);
       ("aircraftModel", PNone) ]
     ++ (if String.eqb flight_type "arrival" then
           [ ("originAirport", PNone); ("originCity", PNone); ("originCountry", PNone);
             ("scheduledTime", PNone) ]
         else
           [ ("destinationAirport", PNone); ("destinationCity", PNone);
             ("destinationCountry", PNone); ("scheduledTime", PNone) ]))%list.


(** The nullable fields of a FlightRecord with the nested path each is read
    from, by direction (section 4.2). *)
Definition field_paths (flight_type : string) : list (string * list string) :=
  ([ ("flightNumber", ["identification"; "number"; "default"]);
     ("airline", ["airline"; "name"]);
     ("status", ["status"; "text"]);
     ("aircraftModel", ["aircraft"; "model"; "text"]) ]
   ++ (if String.eqb flight_type "arrival" then
         [ ("originAirport", ["airport"; "origin"; "name"]);
           ("originCity", ["airport"; "origin"; "position"; "region"; "city"]);
           ("originCountry", ["airport"; "origin"; "position"; "country"; "name"]);
           ("scheduledTime", ["time"; "scheduled"; "arrival"]) ]
       else
         [ ("destinationAirport", ["airport"; "destination"; "name"]);
           ("destinationCity", ["airport"; "destination"; "position"; "region"; "city"]);
           ("destinationCountry", ["airport"; "destination"; "position"; "country"; "name"]);
           ("scheduledTime", ["time"; "scheduled"; "departure"]) ]))%list.

(** The field set of a FlightRecord, in order. *)
Definition record_keys (flight_type : string) : list string :=
  "type" :: map fst (field_paths flight_type).

(** [record] is a FlightRecord read from [flight]: the fixed field set, the
    direction as [type], and null in every field whose path is absent. *)
Definition is_flight_record (flight_type : string) (flight record : pyval) : Prop :=
  exists entries,
    record = PDict entries
    /\ map fst entries = record_keys flight_type
    /\ dict_lookup "type" entries = Some (PStr flight_type)
    /\ forall key path,
         In (key, path) (field_paths flight_type) ->
         optional_path path flight = None ->
         dict_lookup key entries = Some PNone.

(** The provider's envelope for one direction (section 3): the raw records
    sit at [airport.pluginData.schedule.<mode>.data[].flight]. *)
Definition envelope (api_mode : string) (flights : list pyval) : pyval :=
  PDict [("airport",
    PDict [("pluginData",
      PDict [("schedule",
        PDict [(api_mode,
          PDict [("data",
            PList (map (fun flight => PDict [("flight", flight)]) flights))])])])])].

(** A reply with status 200 whose body decodes to [data]. *)
Definition success (data : pyval) : upstream := Ok (mk_response 200 (Ok data)).

(** The upstream failures of section 4.1: a transport failure (network,
    timeout), a status that [raise_for_status] rejects, a body that does not
    decode, and a body with the provider's [error] field. *)
Inductive fetch_failure : upstream -> Prop :=
| transport_failure e :
    fetch_failure (Raise e)
| bad_status r :
    400 <= status r -> fetch_failure (Ok r)
| decode_failure r e :
    json r = Raise e -> fetch_failure (Ok r)
| provider_error r entries detail :
    json r = Ok (PDict entries) -> dict_lookup "error" entries = Some detail ->
    fetch_failure (Ok r).

(** A raw record as [fetch_schedule] extracts it (a truthy [flight] entry)
    that the normalizer turns into [record]. *)
Definition normalizes_to (flight_type : string) (flight record : pyval) : Prop :=
  truthy flight = true /\ simplify_flight flight_type flight = Ok record.

(** Sample raw records and a provider that serves them. *)
Definition sample_A1 : pyval :=
  PDict [("identification", PDict [("number", PDict [("default", PStr "EK202")])]);
         ("airline", PDict [("name", PStr "Emirates")])].
Definition sample_A2 : pyval :=
  PDict [("status", PDict [("text", PStr "Landed")]);
         ("airport", PDict [("origin", PDict [("name", PStr "Heathrow"); ("position", PNone)])])].
Definition sample_D1 : pyval :=
  PDict [("time", PDict [("scheduled", PDict [("departure", PInt 1700000000)])]);
         ("aircraft", PDict [("model", PDict [("text", PStr "Airbus A380-861")])])].

Definition sample_api : provider :=
  fun mode iata =>
    if String.eqb mode "arrivals" then success (envelope "arrivals" [sample_A1; sample_A2])
    else success (envelope "departures" [sample_D1]).

(** The same provider with the arrivals request timing out. *)
Definition sample_api_arrivals_down : provider :=
  fun mode iata =>
    if String.eqb mode "arrivals" then Raise TimeoutError
    else success (envelope "departures" [sample_D1]).

(** The uppercase form of a code, letter by letter (the data model's
    normal form of an IATA code); the sources never call [str.upper]. *)
Definition upper_ascii (c : ascii) : ascii :=
  let n := N_of_ascii c in
  if ((97 <=? n) && (n <=? 122))%N then ascii_of_N (n - 32) else c.

Fixpoint uppercase (s : string) : string :=
  match s with
  | EmptyString => EmptyString
  | String c rest => String (upper_ascii c) (uppercase rest)
  end.

(** *** The calendar, read backwards

    [timegm] is the inverse reading of a UTC datetime: the seconds since the
    epoch that it denotes (Python's [_ymd2ord], the C library's [timegm]). *)

Definition is_leap (y : Z) : bool :=
  (y mod 4 =? 0) && (negb (y mod 100 =? 0) || (y mod 400 =? 0)).

Definition days_before_year (y : Z) : Z :=
  (y - 1) * 365 + (y - 1) / 4 - (y - 1) / 100 + (y - 1) / 400.

Definition month_length (y m : Z) : Z :=
  DateTime.days_in_month m + (if (m =? 2) && is_leap y then 1 else 0).

Definition ymd2ord (y m d : Z) : Z :=
  days_before_year y + DateTime.days_before_month m
  + (if (2 <? m) && is_leap y then 1 else 0) + d.

Definition timegm (dt : DateTime.datetime) : Z :=
  (ymd2ord (DateTime.year dt) (DateTime.month dt) (DateTime.day dt) - DateTime.epoch_ordinal)
  * 86400
  + DateTime.hour dt * 3600 + DateTime.minute dt * 60 + DateTime.second dt.

(** A datetime that [datetime] accepts. *)
Definition valid_datetime (dt : DateTime.datetime) : Prop :=
  1 <= DateTime.year dt <= 9999
  /\ 1 <= DateTime.month dt <= 12
  /\ 1 <= DateTime.day dt <= month_length (DateTime.year dt) (DateTime.month dt)
  /\ 0 <= DateTime.hour dt < 24
  /\ 0 <= DateTime.minute dt < 60
  /\ 0 <= DateTime.second dt < 60.

(** The bounds of [datetime]: 0001-01-01 00:00:00 and 9999-12-31 23:59:59 UTC
    as seconds since the epoch. *)
Definition min_timestamp : Z := -62135596800.
Definition max_timestamp : Z := 253402300799.

(** The month and the day of the month of day [n] of a year (counted from
    0): the last steps of [ord2ymd]. *)
Definition month_and_day (n : Z) (leapyear : bool) : Z * Z :=
  let m := Z.shiftr (n + 50) 5 in
  let preceding :=
    DateTime.days_before_month m + (if (2 <? m) && leapyear then 1 else 0) in
  if n <? preceding then
    let m' := m - 1 in
    let preceding' :=
      preceding - (DateTime.days_in_month m' + (if (m' =? 2) && leapyear then 1 else 0)) in
    (m', n - preceding' + 1)
  else (m, n - preceding + 1).

(** The check of one day of a year: the month and the day found for it lie
    in the calendar and count back to the day. *)
Definition year_day_ok (leapyear : bool) (n : nat) : bool :=
  let '(m, d) := month_and_day (Z.of_nat n) leapyear in
  (1 <=? m) && (m <=? 12) && (1 <=? d)
  && (d <=? DateTime.days_in_month m + (if (m =? 2) && leapyear then 1 else 0))
  && (DateTime.days_before_month m + (if (2 <? m) && leapyear then 1 else 0) + d
      =? Z.of_nat n + 1).

(** *** Traces of calls

    A call as the request handler makes it: the provider's behaviour at that
    moment, the time, and the airport code. *)
Record call : Type := mk_call
  { call_api : provider;
    call_time : Z;
    call_airport : string }.

Definition step (st : Cache.state) (c : call) : Cache.state :=
  snd (Cache.getFlights (call_api c) (call_time c) (call_airport c) st).

Definition run (calls : list call) (st : Cache.state) : Cache.state :=
  foldl step st calls.

(** The keys of a cache that only [ask_question] feeds: no key twice, and
    every key an accepted airport code. *)
Definition keys_ok (es : list (string * Cache.CacheEntry)) : Prop :=
  NoDup (fst <$> es) /\ Forall (fun key => Main.accepted key = true) (fst <$> es).

(** ** [app/services/llm_service.py] *)

Module LlmService.

(** The two fixed answers of [get_answer_from_llm]. *)
Definition no_data_message : string :=
  "К сожалению, не удалось получить данные о рейсах. Попробуйте позже.".
Definition llm_error_message : string :=
  "Произошла ошибка при обработке вашего вопроса. Пожалуйста, попробуйте снова.".

(** The chat-completion client as [get_answer_from_llm] uses it.  The prompt
    is built from the question, the flight data and the airport code, so the
    client is a function of these three; it gives what
    [response.choices[0].message.content] evaluates to (a string, or [None]
    when the model returned no content), or the exception that the request or
    the indexing raised. *)
Definition llm_client : Type := string -> list pyval -> string -> exc (option string).

(** [get_answer_from_llm].  No flight data: the fixed answer, and no request
    is made.  Otherwise the content of the first choice; [except Exception]
    turns a failure into the second fixed answer. *)
Definition get_answer_from_llm (client : llm_client)
    (question : string) (flight_data : list pyval) (airport_code : string)
  : exc (option string) :=
  if negb (truthy (PList flight_data)) then Ok (Some no_data_message)
  else
    match client question flight_data airport_code with
    | Ok content => Ok content
    | Raise e => if is_Exception e then Ok (Some llm_error_message) else Raise e
    end.

End LlmService.

(** ** [app/main.py]: [ask_question] *)

Module Api.

(** [QueryRequest], as the handler receives it after validation. *)
Record QueryRequest : Type := mk_request
  { airport : string;
    question : string }.

(** What the handler hands back to the framework: a [QueryResponse], or the
    [HTTPException] it raised. *)
Inductive reply : Type :=
| QueryResponse (answer : string)
| HTTPException (status_code : Z) (detail : string).

(** [ask_question].  [cached_get_flight_data] is the decorated
    [get_flight_data]; [QueryResponse(answer=answer)] validates that the
    answer is a string (a validation error is a [ValueError]). *)
Definition ask_question (cached_get_flight_data : string -> exc (list pyval))
    (client : LlmService.llm_client) (request : QueryRequest) : exc reply :=
  if negb (Main.accepted (airport request))
  then Ok (HTTPException 400 "Неверный код аэропорта.")
  else
    flight_data ← cached_get_flight_data (airport request);
    answer ← LlmService.get_answer_from_llm client (question request) flight_data
               (airport request);
    match answer with
    | Some text => Ok (QueryResponse text)
    | None => Raise ValueError
    end.

End Api.

(** ** Readings of the fetcher and of the merge loop *)

(** The parameter [mode] of the request for a direction. *)
Definition api_mode_of (flight_type : string) : string :=
  if String.eqb flight_type "arrival" then "arrivals" else "departures".

(** Where the envelope keeps the schedule items of a direction. *)
Definition schedule_path (flight_type : string) : list string :=
  [ "airport"; "pluginData"; "schedule"; api_mode_of flight_type; "data" ].

Definition is_object (v : pyval) : Prop := exists entries, v = PDict entries.

(** The raw records of a list of schedule items: the [flight] entry of each
    item that has a truthy one, in order. *)
Definition listed_flights (items : list pyval) : list pyval :=
  filter (fun flight => truthy flight = true)
    (map (fun item => field_or_null ["flight"] item) items).

(** The lists among the results of the gathered tasks, concatenated in
    order. *)
Definition returned_flights (results : list (exc (list pyval))) : list pyval :=
  flat_map (fun result => match result with Ok flights => flights | Raise _ => [] end) results.

(** No result is an exception outside [Exception]. *)
Definition only_Exceptions (results : list (exc (list pyval))) : bool :=
  forallb (fun result => match result with Ok _ => true | Raise e => is_Exception e end) results.

(** ** Reading a schedule time back

    The inverse reading of [strftime]'s output for a four-digit year: the
    fields at their fixed positions in [YYYY-MM-DD HH:MM:SS UTC]. *)

Definition digit_value (c : ascii) : Z := Z.of_N (N_of_ascii c) - 48.

Definition number_at (start width : nat) (s : string) : Z :=
  fold_left (fun acc c => acc * 10 + digit_value c)
    (list_ascii_of_string (substring start width s)) 0.

Definition parse_utc (s : string) : DateTime.datetime :=
  DateTime.mk_datetime
    (number_at 0 4 s) (number_at 5 2 s) (number_at 8 2 s)
    (number_at 11 2 s) (number_at 14 2 s) (number_at 17 2 s).

(** 1000-01-01 00:00:00 UTC, the first instant of a four-digit year. *)
Definition first_four_digit_year : Z := -30610224000.

(** The decimal digits as [strftime] prints them. *)
Definition digit_char (k : Z) : ascii := ascii_of_N (Z.to_N (48 + k)).

Definition four_digits (y : Z) : string :=
  String (digit_char (y / 1000)) (String (digit_char (y / 100 mod 10))
    (String (digit_char (y / 10 mod 10)) (String (digit_char (y mod 10)) EmptyString))).

Definition two_chars (n : Z) : string :=
  String (digit_char (n / 10)) (String (digit_char (n mod 10)) EmptyString).

(** [check] holds on the [2 ^ depth] integers from [lo] on. *)
Fixpoint holds_on_range (check : Z -> bool) (depth : nat) (lo : Z) : bool :=
  match depth with
  | O => check lo
  | S depth' =>
      holds_on_range check depth' lo && holds_on_range check depth' (lo + 2 ^ Z.of_nat depth')
  end.

(** ** The shape the normalizer can read

    The nested reads of [simplify_flight_data], one list of steps per field.
    A step is a key together with a flag: [true] where the code guards the
    read by the truth value of the container ([x.get(key) if x else ...]),
    [false] where it calls [x.get(key, ...)] on whatever [x] is. *)
Definition shape_paths (flight_type : string) : list (list (bool * string)) :=
  ([ [(false, "identification"); (false, "number"); (false, "default")];
     [(false, "airline"); (true, "name")];
     [(false, "status"); (false, "text")];
     [(false, "aircraft"); (false, "model"); (false, "text")] ]
   ++ (if String.eqb flight_type "arrival" then
         [ [(false, "airport"); (false, "origin"); (false, "name")];
           [(false, "airport"); (false, "origin"); (false, "position");
            (true, "region"); (true, "city")];
           [(false, "airport"); (false, "origin"); (false, "position");
            (true, "country"); (true, "name")];
           [(false, "time"); (false, "scheduled"); (false, "arrival")] ]
       else
         [ [(false, "airport"); (false, "destination"); (false, "name")];
           [(false, "airport"); (false, "destination"); (false, "position");
            (true, "region"); (true, "city")];
           [(false, "airport"); (false, "destination"); (false, "position");
            (true, "country"); (true, "name")];
           [(false, "time"); (false, "scheduled"); (false, "departure")] ]))%list.

(** The containers along the steps can be read: each one, as far as the
    path is present, is an object, or falsy where the read is guarded.  The
    value at the end of the path may be anything. *)
Fixpoint walkable (steps : list (bool * string)) (v : pyval) : bool :=
  match steps with
  | [] => true
  | (guarded, key) :: rest =>
      if guarded && negb (truthy v) then true
      else
        match v with
        | PDict entries =>
            match dict_lookup key entries with
            | Some w => walkable rest w
            | None => true
            end
        | _ => false
        end
  end.

(** A well-shaped raw record: every container on every field path can be
    read, and the value at the time path can be converted. *)
Definition well_shaped (flight_type : string) (flight : pyval) : bool :=
  forallb (fun steps => walkable steps flight) (shape_paths flight_type)
  && negb (raises (convert_timestamp (field_or_null (scheduled_path flight_type) flight))).

(** The same steps with every read guarded: only a truthy value that is not
    an object stands in the way. *)
Definition relax (steps : list (bool * string)) : list (bool * string) :=
  map (fun step => (true, snd step)) steps.

(** Some container on a field path is truthy and not an object (a non-empty
    string, a number other than zero, [true], a non-empty list). *)
Definition has_truthy_non_object (flight_type : string) (flight : pyval) : bool :=
  negb (forallb (fun steps => walkable (relax steps) flight) (shape_paths flight_type)).

(** The text [YYYY-MM-DD HH:MM:SS UTC] of a datetime, every field
    zero-padded to its width. *)
Definition utc_text (dt : DateTime.datetime) : string :=
  four_digits (DateTime.year dt) ++ "-" ++ two_chars (DateTime.month dt) ++ "-"
  ++ two_chars (DateTime.day dt) ++ " " ++ two_chars (DateTime.hour dt) ++ ":"
  ++ two_chars (DateTime.minute dt) ++ ":" ++ two_chars (DateTime.second dt) ++ " UTC".
(** * Properties *)

Local Open Scope list_scope.

(** ** The error monad *)

Lemma bind_Ok {A B} (m : exc A) (k : A -> exc B) (b : B) :
  m ≫= k = Ok b -> exists a, m = Ok a /\ k a = Ok b.
Proof. destruct m as [a|e]; cbn; [eauto | discriminate]. Qed.

(** ** Lookups *)

Lemma py_get_Ok o key dflt v :
  py_get o key dflt = Ok v ->
  exists entries, o = PDict entries /\ v = default dflt (dict_lookup key entries).
Proof. destruct o; cbn; try discriminate. intros [= <-]. eauto. Qed.

Lemma py_get_step o key o' path :
  py_get o key empty_dict = Ok o' -> path <> [] ->
  field_or_null (key :: path) o = field_or_null path o'.
Proof.
  intros (entries & -> & ->)%py_get_Ok Hpath. unfold field_or_null. cbn.
  destruct (dict_lookup key entries) as [w|]; cbn; [done|].
  destruct path as [|k rest]; [done|]. reflexivity.
Qed.

Lemma py_get_last o key v :
  py_get o key PNone = Ok v -> v = field_or_null [key] o.
Proof.
  intros (entries & -> & ->)%py_get_Ok. unfold field_or_null. cbn.
  now destruct (dict_lookup key entries).
Qed.

Lemma falsy_field_or_null o key path :
  truthy o = false -> field_or_null (key :: path) o = PNone.
Proof.
  unfold field_or_null. destruct o as [| | | | | |entries]; cbn; try done.
  now destruct entries.
Qed.

Lemma guarded_get_step o key o' path :
  (if truthy o then py_get o key empty_dict else Ok empty_dict) = Ok o' -> path <> [] ->
  field_or_null (key :: path) o = field_or_null path o'.
Proof.
  destruct (truthy o) eqn:Ht; [apply py_get_step|].
  intros [= <-] Hpath. rewrite falsy_field_or_null by done.
  destruct path; [done|reflexivity].
Qed.

Lemma guarded_get_last o key v :
  (if truthy o then py_get o key PNone else Ok PNone) = Ok v -> v = field_or_null [key] o.
Proof.
  destruct (truthy o) eqn:Ht; [apply py_get_last|].
  intros [= <-]. now rewrite falsy_field_or_null.
Qed.

Lemma field_or_null_absent path flight :
  optional_path path flight = None -> field_or_null path flight = PNone.
Proof. unfold field_or_null. now intros ->. Qed.

(** ** The record normalizer *)

Section Normalizer.

Variable flight_type : string.

Tactic Notation "step" hyp(H) ident(x) ident(Hx) := apply bind_Ok in H as (x & Hx & H).

Ltac chain :=
  repeat match goal with
         | Hx : py_get ?o ?k empty_dict = Ok _ |- context [field_or_null (?k :: _ :: _) ?o] =>
             rewrite (py_get_step _ _ _ _ Hx) by done
         | Hx : (if truthy ?o then py_get ?o ?k empty_dict else _) = Ok _
           |- context [field_or_null (?k :: _ :: _) ?o] =>
             rewrite (guarded_get_step _ _ _ _ Hx) by done
         end;
  first [ now apply py_get_last | now apply guarded_get_last ].

(** Whenever the [try] block builds a record, it is the FlightRecord of the
    optional-chained reading: the fixed field set, each field the value at
    its path and null when the path is absent. *)
Lemma simplify_flight_Ok flight record :
  simplify_flight flight_type flight = Ok record ->
  exists scheduledTime,
    convert_timestamp (field_or_null (scheduled_path flight_type) flight) = Ok scheduledTime
    /\ record = flight_record flight_type flight scheduledTime.
Proof.
  unfold simplify_flight, flight_record, scheduled_path. intros H.
  step H identification Hid. step H airline_info Hai. step H status_info Hsi.
  step H aircraft_info Hci. step H airport_info Hpi. step H time_info Hti.
  step H number Hnum. step H flightNumber Hfn. step H airline Hal.
  step H status_text Hst. step H model Hmo. step H aircraftModel Ham.
  assert (flightNumber = field_or_null ["identification"; "number"; "default"] flight)
    as -> by chain.
  assert (airline = field_or_null ["airline"; "name"] flight) as -> by chain.
  assert (status_text = field_or_null ["status"; "text"] flight) as -> by chain.
  assert (aircraftModel = field_or_null ["aircraft"; "model"; "text"] flight) as -> by chain.
  destruct (String.eqb flight_type "arrival").
  - step H origin Hor. step H position Hpo. step H region Hre. step H country Hco.
    step H name Hna. step H city Hcity. step H cname Hcn. step H scheduled Hsc.
    step H ts Hts. step H scheduledTime Hconv. injection H as <-.
    exists scheduledTime. split.
    + assert (ts = field_or_null ["time"; "scheduled"; "arrival"] flight) as <- by chain.
      exact Hconv.
    + cbn. repeat f_equal; chain.
  - step H destination Hor. step H position Hpo. step H region Hre. step H country Hco.
    step H name Hna. step H city Hcity. step H cname Hcn. step H scheduled Hsc.
    step H ts Hts. step H scheduledTime Hconv. injection H as <-.
    exists scheduledTime. split.
    + assert (ts = field_or_null ["time"; "scheduled"; "departure"] flight) as <- by chain.
      exact Hconv.
    + cbn. repeat f_equal; chain.
Qed.

(** A raw record without the optional sub-objects normalizes to the record
    with every optional field null. *)
Lemma simplify_flight_blank entries :
  lacks_optional_keys entries ->
  simplify_flight flight_type (PDict entries) = Ok (blank_record flight_type).
Proof.
  unfold lacks_optional_keys. rewrite !Forall_cons.
  intros (Hid & Hai & Hsi & Hci & Hpi & Hti & _).
  unfold simplify_flight, blank_record. cbn. rewrite Hid, Hai, Hsi, Hci, Hpi, Hti. cbn.
  now destruct (String.eqb flight_type "arrival").
Qed.

(** *** The loop *)

Lemma fold_keep flights acc :
  fold_left (simplify_step flight_type) flights acc = acc ++ fold_left (simplify_step flight_type) flights [].
Proof.
  revert acc. induction flights as [|flight flights IH]; intros acc; cbn.
  - now rewrite app_nil_r.
  - rewrite IH, (IH (simplify_step flight_type [] flight)). unfold simplify_step.
    destruct (simplify_flight flight_type flight); cbn; [now rewrite <- app_assoc|done].
Qed.

Lemma simplify_flight_data_nil : simplify_flight_data [] flight_type = [].
Proof. reflexivity. Qed.

Lemma simplify_flight_data_cons flight flights :
  simplify_flight_data (flight :: flights) flight_type =
  match simplify_flight flight_type flight with
  | Ok record => record :: simplify_flight_data flights flight_type
  | Raise _ => simplify_flight_data flights flight_type
  end.
Proof.
  unfold simplify_flight_data. cbn [fold_left]. rewrite fold_keep. unfold simplify_step at 1.
  now destruct (simplify_flight flight_type flight).
Qed.

Lemma simplify_flight_data_app before after :
  simplify_flight_data (before ++ after) flight_type =
  simplify_flight_data before flight_type ++ simplify_flight_data after flight_type.
Proof.
  induction before as [|flight before IH]; [done|].
  rewrite <- app_comm_cons, !simplify_flight_data_cons, IH.
  now destruct (simplify_flight flight_type flight).
Qed.

Lemma simplify_flight_data_all_ok flights records :
  Forall2 (fun flight record => simplify_flight flight_type flight = Ok record) flights records ->
  simplify_flight_data flights flight_type = records.
Proof.
  induction 1 as [|flight record flights records Hok _ IH]; [done|].
  now rewrite simplify_flight_data_cons, Hok, IH.
Qed.

End Normalizer.

Lemma flight_record_is_flight_record flight_type flight scheduledTime :
  convert_timestamp (field_or_null (scheduled_path flight_type) flight) = Ok scheduledTime ->
  is_flight_record flight_type flight (flight_record flight_type flight scheduledTime).
Proof.
  intros Hconv. unfold flight_record, is_flight_record, record_keys, field_paths.
  unfold scheduled_path in Hconv.
  eexists. split; [reflexivity|].
  destruct (String.eqb flight_type "arrival");
    (split; [reflexivity|]; split; [reflexivity|]);
    intros key path Hin Habsent; cbn in Hin;
    repeat (destruct Hin as [[= <- <-]|Hin]); try (now destruct Hin);
    cbn; try (now rewrite (field_or_null_absent _ _ Habsent));
    rewrite (field_or_null_absent _ _ Habsent) in Hconv; cbn in Hconv; congruence.
Qed.

Lemma simplify_flight_data_In flight_type flights record :
  In record (simplify_flight_data flights flight_type) ->
  exists flight, In flight flights /\ simplify_flight flight_type flight = Ok record.
Proof.
  induction flights as [|flight flights IH]; [intros []|].
  rewrite simplify_flight_data_cons.
  destruct (simplify_flight flight_type flight) as [r|e] eqn:Hflight.
  - intros [<-|Hin].
    + exists flight. split; [now left|done].
    + destruct (IH Hin) as (f & Hf & Hok). exists f. split; [now right|done].
  - intros Hin. destruct (IH Hin) as (f & Hf & Hok). exists f. split; [now right|done].
Qed.

Lemma empty_object_lacks_optional_keys : lacks_optional_keys [].
Proof. unfold lacks_optional_keys. repeat constructor. Qed.

(** A raw record whose [identification] is a number instead of an object
    gets no FlightRecord: the lookup on it raises and the record is dropped,
    so not every input record is normalized. *)
Lemma wrong_typed_record_gets_no_flight_record :
  simplify_flight "arrival" (PDict [("identification", PInt 5)]) = Raise AttributeError
  /\ ~ (exists record,
          simplify_flight_data [PDict [("identification", PInt 5)]] "arrival" = [record]).
Proof.
  split; [reflexivity|]. intros [record H]. vm_compute in H. discriminate.
Qed.

(** C8: a raw record whose processing raises is dropped alone; the records
    before and after it are normalized as if it were not in the batch, and
    the batch as a whole yields a list. *)
Theorem malformed_record_dropped_alone
    (flight_type : string) (before after : list pyval) (bad : pyval) :
  raises (simplify_flight flight_type bad) = true ->
  simplify_flight_data (before ++ bad :: after) flight_type =
  simplify_flight_data before flight_type ++ simplify_flight_data after flight_type.
Proof.
  intros Hbad. rewrite simplify_flight_data_app, simplify_flight_data_cons.
  now destruct (simplify_flight flight_type bad).
Qed.

Lemma malformed_record_dropped_alone_witness :
  simplify_flight_data
    [PDict []; PDict [("status", PStr "landed")]; PDict [("airline", PDict [])]] "departure" =
  [blank_record "departure"; blank_record "departure"].
Proof.
  apply (malformed_record_dropped_alone "departure"
           [PDict []] [PDict [("airline", PDict [])]] (PDict [("status", PStr "landed")])).
  reflexivity.
Defined.

(** C10: the output is never longer than the input, and it lists, in input
    order, the records of exactly those raw records that were kept: nothing
    is duplicated, made up or reordered. *)
Theorem normalizer_output_is_ordered_selection (flights : list pyval) (flight_type : string) :
  (length (simplify_flight_data flights flight_type) <= length flights)%nat
  /\ exists kept,
       sublist kept flights
       /\ Forall2 (fun flight record => simplify_flight flight_type flight = Ok record)
            kept (simplify_flight_data flights flight_type).
Proof.
  induction flights as [|flight flights [IHlen (kept & Hsub & Hall)]].
  - split; [done|]. exists []. split; constructor.
  - rewrite simplify_flight_data_cons.
    destruct (simplify_flight flight_type flight) as [record|e] eqn:Hflight.
    + split; [cbn; lia|]. exists (flight :: kept). split; [now constructor|].
      now constructor.
    + split; [cbn; lia|]. exists kept. split; [now constructor|done].
Qed.

(** ** The schedule fetcher *)

Lemma fetch_schedule_absorbs reply flight_type e :
  fetch_schedule_try reply flight_type = Raise e -> fetch_schedule reply flight_type = [].
Proof. unfold fetch_schedule. now intros ->. Qed.

(** On a failure the [try] block never reaches the assignment to [res]: it
    raises, or it takes the early return of the provider-error branch. *)
Lemma fetch_failure_leaves_try reply flight_type :
  fetch_failure reply ->
  fetch_schedule_try reply flight_type = Ok []
  \/ exists e, fetch_schedule_try reply flight_type = Raise e.
Proof.
  intros Hfail. unfold fetch_schedule_try.
  destruct Hfail as [e|r Hstatus|r e Hjson|r entries detail Hjson Herror]; cbn.
  - right. eauto.
  - right. unfold raise_for_status.
    destruct (Z.leb_spec 400 (status r)); [cbn; eauto|lia].
  - right. destruct (raise_for_status r); cbn; [|eauto]. rewrite Hjson. cbn. eauto.
  - destruct (raise_for_status r); cbn; [|eauto]. rewrite Hjson. cbn. rewrite Herror.
    cbn. now left.
Qed.

(** C5: a single-direction fetch returns the empty sequence on a rejected
    status, on a body with the provider's error field, on a network failure
    and on a decode failure; whatever the [try] block raises, the fetch still
    returns the empty sequence. *)
Theorem fetch_failure_gives_empty (reply : upstream) (flight_type : string) :
  fetch_failure reply ->
  fetch_schedule reply flight_type = []
  /\ forall e, fetch_schedule_try reply flight_type = Raise e ->
               fetch_schedule reply flight_type = [].
Proof.
  intros Hfail. split.
  - unfold fetch_schedule.
    destruct (fetch_failure_leaves_try reply flight_type Hfail) as [Hearly|[e Hraise]].
    + now rewrite Hearly.
    + now rewrite Hraise.
  - intros e Hraise. unfold fetch_schedule. now rewrite Hraise.
Qed.

Lemma fetch_failure_gives_empty_witness :
  fetch_schedule (Ok (mk_response 503 (Ok (envelope "arrivals" [PDict []])))) "arrival" = []
  /\ fetch_schedule (Raise TimeoutError) "departure" = []
  /\ fetch_schedule (Ok (mk_response 200 (Raise JSONDecodeError))) "arrival" = []
  /\ fetch_schedule
       (Ok (mk_response 200 (Ok (PDict [("error", PStr "invalid key")])))) "departure" = [].
Proof.
  split; [|split; [|split]].
  - refine (proj1 (fetch_failure_gives_empty _ "arrival" _)). apply bad_status. cbn. lia.
  - refine (proj1 (fetch_failure_gives_empty _ "departure" _)). apply transport_failure.
  - refine (proj1 (fetch_failure_gives_empty _ "arrival" _)). now eapply decode_failure.
  - refine (proj1 (fetch_failure_gives_empty _ "departure" _)). now eapply provider_error.
Defined.

Lemma extract_flights_acc flights acc :
  Forall (fun flight => truthy flight = true) flights ->
  foldl
    (fun acc item =>
       flights_list ← acc;
       flight ← py_get item "flight" PNone;
       if truthy flight then Ok (flights_list ++ [flight]) else Ok flights_list)
    (Ok acc) (map (fun flight => PDict [("flight", flight)]) flights)
  = Ok (acc ++ flights).
Proof.
  intros Hall. revert acc. induction Hall as [|flight flights Htruthy _ IH]; intros acc; cbn.
  - now rewrite app_nil_r.
  - rewrite Htruthy, IH. now rewrite <- app_assoc.
Qed.

Lemma extract_flights_envelope flights :
  Forall (fun flight => truthy flight = true) flights ->
  extract_flights (map (fun flight => PDict [("flight", flight)]) flights) = Ok flights.
Proof. intros Hall. unfold extract_flights. now rewrite extract_flights_acc. Qed.

(** A well-formed reply hands every extracted raw record to the normalizer. *)
Lemma fetch_schedule_envelope flight_type flights :
  Forall (fun flight => truthy flight = true) flights ->
  fetch_schedule
    (success (envelope (if String.eqb flight_type "arrival" then "arrivals" else "departures")
                flights))
    flight_type
  = simplify_flight_data flights flight_type.
Proof.
  intros Hall. unfold fetch_schedule, fetch_schedule_try, success, envelope.
  destruct (String.eqb flight_type "arrival"); cbn;
    now rewrite (extract_flights_envelope _ Hall).
Qed.

Lemma normalizes_to_truthy flight_type flights records :
  Forall2 (normalizes_to flight_type) flights records ->
  Forall (fun flight => truthy flight = true) flights.
Proof. induction 1 as [|? ? ? ? [? ?]]; constructor; done. Qed.

Lemma normalizes_to_records flight_type flights records :
  Forall2 (normalizes_to flight_type) flights records ->
  simplify_flight_data flights flight_type = records.
Proof.
  intros Hall. apply simplify_flight_data_all_ok.
  induction Hall as [|? ? ? ? [? ?]]; constructor; done.
Qed.

(** The aggregation cannot raise on what its own fetches return. *)
Lemma get_flight_data_returns api airport_code :
  get_flight_data api airport_code =
  Ok (fetch_schedule (api "arrivals" airport_code) "arrival"
      ++ fetch_schedule (api "departures" airport_code) "departure").
Proof. reflexivity. Qed.

(** C4: on a miss, with the provider returning the raw arrivals and the raw
    departures, the aggregation is the normalized arrivals followed by the
    normalized departures, each in the provider's order. *)
Theorem merge_is_arrivals_then_departures
    (api : provider) (airport_code : string)
    (arrivals departures normalized_arrivals normalized_departures : list pyval) :
  api "arrivals" airport_code = success (envelope "arrivals" arrivals) ->
  api "departures" airport_code = success (envelope "departures" departures) ->
  Forall2 (normalizes_to "arrival") arrivals normalized_arrivals ->
  Forall2 (normalizes_to "departure") departures normalized_departures ->
  get_flight_data api airport_code = Ok (normalized_arrivals ++ normalized_departures).
Proof.
  intros Harr Hdep Hnorm_arr Hnorm_dep.
  rewrite get_flight_data_returns, Harr, Hdep.
  rewrite (fetch_schedule_envelope "arrival"), (fetch_schedule_envelope "departure")
    by eauto using normalizes_to_truthy.
  now rewrite (normalizes_to_records _ _ _ Hnorm_arr), (normalizes_to_records _ _ _ Hnorm_dep).
Qed.

Lemma merge_is_arrivals_then_departures_witness :
  get_flight_data sample_api "DXB" =
  Ok [ flight_record "arrival" sample_A1 PNone;
       flight_record "arrival" sample_A2 PNone;
       flight_record "departure" sample_D1 (PStr "2023-11-14 22:13:20 UTC") ].
Proof.
  apply (merge_is_arrivals_then_departures sample_api "DXB"
           [sample_A1; sample_A2] [sample_D1]
           [flight_record "arrival" sample_A1 PNone; flight_record "arrival" sample_A2 PNone]
           [flight_record "departure" sample_D1 (PStr "2023-11-14 22:13:20 UTC")]).
  - reflexivity.
  - reflexivity.
  - repeat constructor.
  - repeat constructor.
Defined.

(** C6: when the arrival fetch fails and the departure fetch returns its
    records, the aggregation returns the normalized departures and no error;
    the same holds when the arrival task itself ends with an exception, which
    the merge loop reports and skips. *)
Theorem partial_failure_keeps_other_direction
    (api : provider) (airport_code : string)
    (departures normalized_departures : list pyval) :
  fetch_failure (api "arrivals" airport_code) ->
  api "departures" airport_code = success (envelope "departures" departures) ->
  Forall2 (normalizes_to "departure") departures normalized_departures ->
  get_flight_data api airport_code = Ok normalized_departures
  /\ forall e, is_Exception e = true ->
       merge_results
         [Raise e; Ok (fetch_schedule (api "departures" airport_code) "departure")]
       = Ok normalized_departures.
Proof.
  intros Hfail Hdep Hnorm.
  assert (Hfetch : fetch_schedule (api "departures" airport_code) "departure"
                   = normalized_departures).
  { rewrite Hdep, (fetch_schedule_envelope "departure") by eauto using normalizes_to_truthy.
    now apply normalizes_to_records. }
  split.
  - rewrite get_flight_data_returns, Hfetch. unfold fetch_schedule at 1.
    now destruct (fetch_failure_leaves_try _ "arrival" Hfail) as [->|[e ->]].
  - intros e He. cbn. now rewrite He, Hfetch.
Qed.

Lemma partial_failure_keeps_other_direction_witness :
  get_flight_data sample_api_arrivals_down "LHR" =
  Ok [flight_record "departure" sample_D1 (PStr "2023-11-14 22:13:20 UTC")].
Proof.
  refine (proj1 (partial_failure_keeps_other_direction sample_api_arrivals_down "LHR"
                   [sample_D1] _ _ _ _)).
  - apply transport_failure.
  - reflexivity.
  - repeat constructor.
Defined.

(** ** The cache *)

Section CacheFacts.

Import Cache.

Lemma lookup_app_None key es es' :
  lookup key es = None -> lookup key (es ++ es') = lookup key es'.
Proof.
  induction es as [|[k e] es IH]; cbn; [done|].
  destruct (String.eqb k key); [discriminate|exact IH].
Qed.

Lemma lookup_singleton key e : lookup key [(key, e)] = Some e.
Proof. cbn. now rewrite String.eqb_refl. Qed.

Lemma lookup_tail_None key es : lookup key es = None -> lookup key (tail es) = None.
Proof.
  destruct es as [|[k e] es]; cbn; [done|]. now destruct (String.eqb k key).
Qed.

Lemma lookup_unexpired_None now key es :
  lookup key es = None -> lookup key (unexpired now es) = None.
Proof.
  unfold unexpired. induction es as [|[k e] es IH]; cbn; [done|].
  destruct (String.eqb k key) eqn:Hk; [discriminate|]. intros Hnone.
  destruct (decide (fresh now e = true)); cbn; [|auto].
  rewrite Hk. auto.
Qed.


Lemma lookup_remove key es : lookup key (remove key es) = None.
Proof.
  unfold remove. induction es as [|[k e] es IH]; cbn; [done|].
  destruct (decide (String.eqb k key = false)) as [Hk|_]; cbn; [|done].
  now rewrite Hk.
Qed.

Lemma evict_snoc es x :
  exists es', evict (es ++ [x]) = es' ++ [x] /\ (es' = es \/ es' = tail es).
Proof.
  unfold evict. destruct (maxsize <? length (es ++ [x]))%nat eqn:Hlen.
  - destruct es as [|y es]; [discriminate|]. exists es. cbn. auto.
  - exists es. auto.
Qed.

(** After a call the key holds an entry, and the call returned its value. *)
Lemma getFlights_stores api now airport_code st :
  exists e,
    lookup (cache_key airport_code) (entries (snd (getFlights api now airport_code st))) = Some e
    /\ fst (getFlights api now airport_code st) = Ok (value e)
    /\ (requests (snd (getFlights api now airport_code st)) = requests st
        \/ (requests (snd (getFlights api now airport_code st))
              = requests st ++ round_requests airport_code
            /\ created e = now
            /\ Ok (value e) = get_flight_data api airport_code)).
Proof.
  unfold getFlights.
  destruct (lookup (cache_key airport_code) (unexpired now (entries st))) as [e|] eqn:Hlook.
  - exists e. cbn. repeat split; [|now left].
    rewrite lookup_app_None by apply lookup_remove. apply lookup_singleton.
  - rewrite get_flight_data_returns. eexists. cbn. repeat split.
    + destruct (evict_snoc (unexpired now (entries st))
                  (cache_key airport_code, mk_entry
                     (fetch_schedule (api "arrivals" airport_code) "arrival"
                      ++ fetch_schedule (api "departures" airport_code) "departure") now))
        as (es' & -> & [->| ->]).
      * rewrite lookup_app_None by done. apply lookup_singleton.
      * rewrite lookup_app_None by now apply lookup_tail_None. apply lookup_singleton.
    + reflexivity.
    + right. cbn. done.
Qed.




(** An entry found at [t1] with creation time [t1] is still found before
    [t1 + ttl]. *)
Lemma lookup_still_unexpired key es e t2 :
  lookup key es = Some e -> t2 < created e + ttl ->
  lookup key (unexpired t2 es) = Some e.
Proof.
  unfold unexpired. induction es as [|[k e'] es IH]; cbn; [discriminate|].
  destruct (String.eqb k key) eqn:Hk.
  - intros [= ->] Hlt. destruct (decide (fresh t2 e = true)) as [|Hn]; [cbn; now rewrite Hk|]. unfold fresh in Hn. destruct (Z.ltb_spec t2 (created e + ttl)); [done|lia].
  - intros Hlook Hlt. destruct (decide (fresh t2 e' = true)); cbn; [rewrite Hk|]; auto.
Qed.

(** One aggregation round adds at most one request of a mode for an
    airport. *)
Lemma sent_for_round mode airport_code log :
  (sent_for mode airport_code (log ++ round_requests airport_code)
   <= sent_for mode airport_code log + 1)%nat.
Proof.
  unfold sent_for, round_requests. rewrite filter_app, length_app.
  apply Nat.add_le_mono_l. rewrite !filter_cons, filter_nil.
  destruct (decide (("arrivals", airport_code) = (mode, airport_code))) as [Harr|];
    destruct (decide (("departures", airport_code) = (mode, airport_code))) as [Hdep|];
    cbn; try lia.
  congruence.
Qed.

End CacheFacts.



Lemma accepted_is_uppercase airport :
  Main.accepted airport = true -> uppercase airport = airport.
Proof.
  unfold Main.accepted, Main.valid_airports. cbn [existsb].
  rewrite !orb_true_iff, !String.eqb_eq.
  intros [->|[->|[->|[->|[->|[->|[=]]]]]]]; reflexivity.
Qed.

(** C9 (as amended): an entry is keyed by the airport code exactly as it is
    passed, there is no case normalization.  [ask_question] accepts only six
    uppercase codes, so for every accepted code the key under which the
    flights are stored and looked up is the uppercase form of the code:
    after a call the entry under that key holds the returned sequence.  A
    code that differs from an accepted one only in letter case is not
    accepted, and it names another key. *)
Theorem accepted_codes_key_their_uppercase_form (airport : string) :
  Main.accepted airport = true ->
  (forall code, Cache.cache_key code = code)
  /\ Cache.cache_key airport = uppercase airport
  /\ (forall api now st,
        exists e,
          Cache.lookup (uppercase airport)
            (Cache.entries (snd (Cache.getFlights api now airport st))) = Some e
          /\ fst (Cache.getFlights api now airport st) = Ok (Cache.value e))
  /\ (forall variant,
        uppercase variant = uppercase airport -> variant <> airport ->
        Main.accepted variant = false
        /\ Cache.cache_key variant <> Cache.cache_key airport).
Proof.
  intros Haccepted. pose proof (accepted_is_uppercase _ Haccepted) as Hupper.
  split; [reflexivity|]. split; [|split].
  - unfold Cache.cache_key. now rewrite Hupper.
  - intros api now st. rewrite Hupper.
    destruct (getFlights_stores api now airport st) as (e & Hlook & Hval & _). eauto.
  - intros variant Hsame Hdiffers. split; [|exact Hdiffers].
    destruct (Main.accepted variant) eqn:Hvariant; [|done].
    apply accepted_is_uppercase in Hvariant. congruence.
Qed.

Lemma accepted_codes_key_their_uppercase_form_witness :
  Main.accepted "sin" = false /\ Cache.cache_key "sin" <> Cache.cache_key "SIN".
Proof.
  refine (proj2 (proj2 (proj2 (accepted_codes_key_their_uppercase_form "SIN" _))) "sin" _ _).
  - reflexivity.
  - reflexivity.
  - discriminate.
Defined.

(** Two requests that differ only in letter case do not share an entry: the
    lowercase code is rejected by the allow-list, it names another key, and
    with the uppercase code cached it finds no entry. *)
Lemma case_variants_share_no_entry :
  uppercase "dxb" = uppercase "DXB"
  /\ Main.accepted "DXB" = true
  /\ Main.accepted "dxb" = false
  /\ Cache.cache_key "dxb" <> Cache.cache_key "DXB"
  /\ Cache.lookup (Cache.cache_key "dxb")
       (Cache.entries (snd (Cache.getFlights sample_api 1000 "DXB" Cache.empty))) = None.
Proof.
  split; [reflexivity|]. split; [reflexivity|]. split; [reflexivity|].
  split; [discriminate|]. vm_compute. reflexivity.
Qed.

(** ** The timestamp rule *)

Section Timestamp.

Import DateTime.

Lemma convert_timestamp_falsy ts :
  truthy ts = false -> convert_timestamp ts = Ok PNone.
Proof. intros H. unfold convert_timestamp. now rewrite H. Qed.

(** Every day of a year, leap or not, by computation. *)
Lemma year_days_checked :
  forallb (year_day_ok false) (seq 0 365) = true
  /\ forallb (year_day_ok true) (seq 0 365) = true.
Proof. split; vm_compute; reflexivity. Qed.

Lemma month_and_day_spec n leapyear :
  0 <= n < 365 ->
  let '(m, d) := month_and_day n leapyear in
  1 <= m <= 12
  /\ 1 <= d <= days_in_month m + (if (m =? 2) && leapyear then 1 else 0)
  /\ days_before_month m + (if (2 <? m) && leapyear then 1 else 0) + d = n + 1.
Proof.
  intros Hn.
  assert (Hok : year_day_ok leapyear (Z.to_nat n) = true).
  { destruct year_days_checked as [Hcommon Hleap]. rewrite forallb_forall in Hcommon, Hleap.
    destruct leapyear; [apply Hleap|apply Hcommon]; apply in_seq; lia. }
  unfold year_day_ok in Hok. rewrite Z2Nat.id in Hok by lia.
  destruct (month_and_day n leapyear) as [m d].
  rewrite !andb_true_iff in Hok. destruct Hok as [[[[? ?] ?] ?] Hcount].
  apply Z.eqb_eq in Hcount. lia.
Qed.

Lemma ord2ymd_unfold n :
  ord2ymd n =
  let n400 := (n - 1) / 146097 in
  let n100 := (n - 1) mod 146097 / 36524 in
  let n4 := (n - 1) mod 146097 mod 36524 / 1461 in
  let n1 := (n - 1) mod 146097 mod 36524 mod 1461 / 365 in
  let n0 := (n - 1) mod 146097 mod 36524 mod 1461 mod 365 in
  let y := n400 * 400 + 1 + n100 * 100 + n4 * 4 + n1 in
  if (n1 =? 4) || (n100 =? 4) then (y - 1, 12, 31)
  else
    let '(m, d) := month_and_day n0 ((n1 =? 3) && (negb (n4 =? 24) || (n100 =? 3))) in
    (y, m, d).
Proof.
  unfold ord2ymd, month_and_day. cbv zeta.
  repeat match goal with
         | |- context [if ?b then _ else _] => destruct b
         end; reflexivity.
Qed.

(** [ord2ymd] is inverted by [ymd2ord], on every day. *)
Lemma ord2ymd_inverse n :
  let '(y, m, d) := ord2ymd n in
  ymd2ord y m d = n /\ 1 <= m <= 12 /\ 1 <= d <= month_length y m.
Proof.
  rewrite ord2ymd_unfold. cbv zeta.
  set (n0 := (n - 1) mod 146097 mod 36524 mod 1461 mod 365).
  set (n1 := (n - 1) mod 146097 mod 36524 mod 1461 / 365).
  set (n4 := (n - 1) mod 146097 mod 36524 / 1461).
  set (n100 := (n - 1) mod 146097 / 36524).
  set (n400 := (n - 1) / 146097).
  assert (Hn : n - 1 = 146097 * n400 + 36524 * n100 + 1461 * n4 + 365 * n1 + n0
               /\ 0 <= n100 /\ 0 <= n4 /\ 0 <= n1 /\ 0 <= n0 < 365
               /\ 36524 * n100 + 1461 * n4 + 365 * n1 + n0 < 146097
               /\ 1461 * n4 + 365 * n1 + n0 < 36524
               /\ 365 * n1 + n0 < 1461).
  { subst n0 n1 n4 n100 n400. Z.div_mod_to_equations. lia. }
  clearbody n0 n1 n4 n100 n400.
  destruct Hn as (Hn & H100 & H4 & H1 & H0 & Hcycle & Hcentury & Hyear).
  unfold ymd2ord, month_length, days_before_year, is_leap.
  destruct ((n1 =? 4) || (n100 =? 4)) eqn:Hlast.
  - cbv beta iota zeta. cbn [days_before_month days_in_month].
    repeat match goal with
           | |- context [if ?b then _ else _] => destruct b eqn:?
           end; Z.div_mod_to_equations; lia.
  - pose proof (month_and_day_spec n0 ((n1 =? 3) && (negb (n4 =? 24) || (n100 =? 3))) H0)
      as Hmd.
    destruct (month_and_day n0 ((n1 =? 3) && (negb (n4 =? 24) || (n100 =? 3)))) as [m d].
    destruct Hmd as (Hm & Hd & Hcount).
    set (y := n400 * 400 + 1 + n100 * 100 + n4 * 4 + n1) in *.
    assert (Hleap : (y mod 4 =? 0) && (negb (y mod 100 =? 0) || (y mod 400 =? 0))
                    = (n1 =? 3) && (negb (n4 =? 24) || (n100 =? 3))).
    { subst y. apply eq_true_iff_eq. rewrite !andb_true_iff, !orb_true_iff, !negb_true_iff.
      rewrite !Z.eqb_eq, !Z.eqb_neq. Z.div_mod_to_equations. lia. }
    rewrite Hleap. split; [|split; [done|done]].
    rewrite <- Z.add_assoc, Z.add_assoc in Hcount.
    assert (Hdays : (y - 1) * 365 + (y - 1) / 4 - (y - 1) / 100 + (y - 1) / 400
                    = 146097 * n400 + 36524 * n100 + 1461 * n4 + 365 * n1).
    { subst y. Z.div_mod_to_equations. lia. }
    lia.
Qed.

Lemma ord2ymd_year_bounds n :
  1 <= n <= 3652059 -> 1 <= fst (fst (ord2ymd n)) <= 9999.
Proof.
  intros Hn. unfold ord2ymd.
  repeat match goal with
         | |- context [if ?b then _ else _] => destruct b eqn:?
         end; cbn [fst snd]; Z.div_mod_to_equations; lia.
Qed.

(** [gmtime] gives a calendar date and a time of day that denote the
    instant it was given. *)
Lemma gmtime_inverse t dt :
  gmtime t = Ok dt ->
  timegm dt = t
  /\ 1 <= month dt <= 12
  /\ 1 <= day dt <= month_length (year dt) (month dt)
  /\ 0 <= hour dt < 24 /\ 0 <= minute dt < 60 /\ 0 <= second dt < 60.
Proof.
  unfold gmtime.
  destruct ((-67768040609740800 <=? t) && (t <=? 67768036191676799)); [|discriminate].
  pose proof (ord2ymd_inverse (t / 86400 + epoch_ordinal)) as Hinv.
  destruct (ord2ymd (t / 86400 + epoch_ordinal)) as [[y m] d].
  destruct Hinv as (Hord & Hm & Hd).
  intros [= <-]. unfold timegm. cbn [year month day hour minute second].
  rewrite Hord. repeat split; try lia; Z.div_mod_to_equations; lia.
Qed.

Lemma gmtime_year_in_range t :
  min_timestamp <= t <= max_timestamp ->
  exists dt, gmtime t = Ok dt /\ 1 <= year dt <= 9999.
Proof.
  unfold min_timestamp, max_timestamp. intros Ht. unfold gmtime.
  destruct (Z.leb_spec (-67768040609740800) t); [|lia].
  destruct (Z.leb_spec t 67768036191676799); [|lia]. cbn [andb].
  pose proof (ord2ymd_year_bounds (t / 86400 + epoch_ordinal)) as Hyear.
  destruct (ord2ymd (t / 86400 + epoch_ordinal)) as [[y m] d].
  eexists. split; [reflexivity|]. cbn [year]. cbn [fst] in Hyear. apply Hyear.
  unfold epoch_ordinal. Z.div_mod_to_equations. lia.
Qed.

Lemma fromtimestamp_utc_int n :
  min_timestamp <= n <= max_timestamp ->
  exists dt, fromtimestamp_utc (PInt n) = Ok dt /\ valid_datetime dt /\ timegm dt = n.
Proof.
  intros Hn. destruct (gmtime_year_in_range n Hn) as (dt & Hgm & Hyear).
  exists dt. unfold fromtimestamp_utc, time_t_of_int, time_t_min, time_t_max.
  unfold min_timestamp, max_timestamp in Hn.
  destruct (Z.leb_spec (- 2 ^ 63) n); [|lia].
  destruct (Z.leb_spec n (2 ^ 63 - 1)); [|lia].
  cbn. rewrite Hgm. cbn.
  destruct (Z.leb_spec 1 (year dt)); [|lia].
  destruct (Z.leb_spec (year dt) 9999); [|lia]. cbn [andb].
  apply gmtime_inverse in Hgm. unfold valid_datetime. tauto.
Qed.

End Timestamp.

(** ** Traces of accepted calls

    The allow-list admits six airport codes, fewer than [maxsize]: a cache fed
    through the allow-list never evicts, and within a window shorter than the TTL
    an airport is fetched at most once, whatever other calls come between. *)

Section Trace.

Import Cache.

Lemma lookup_None_keys key es : lookup key es = None <-> key ∉ fst <$> es.
Proof.
  induction es as [|[k e] es IH]; cbn.
  - split; [intros _; apply not_elem_of_nil|done].
  - rewrite not_elem_of_cons. destruct (String.eqb_spec k key) as [->|Hne].
    + split; [discriminate|]. now intros [[] _].
    + rewrite IH. split; [intros ?; split; [congruence|done]|now intros [_ ?]].
Qed.

Lemma accepted_elem_of key : Main.accepted key = true <-> key ∈ Main.valid_airports.
Proof.
  unfold Main.accepted. rewrite existsb_exists. split.
  - intros (k & Hin & ->%String.eqb_eq). now apply list_elem_of_In.
  - intros Hin. exists key. split; [now apply list_elem_of_In|apply String.eqb_refl].
Qed.

(** Keys without repetition among the six accepted codes: at most six. *)
Lemma keys_ok_length es : keys_ok es -> (length es <= 6)%nat.
Proof.
  intros [Hnodup Hacc]. rewrite <- (length_fmap fst es).
  change 6%nat with (length Main.valid_airports).
  apply submseteq_length, NoDup_submseteq; [done|].
  intros key Hin. rewrite Forall_forall in Hacc. now apply accepted_elem_of, Hacc.
Qed.

Lemma keys_ok_sublist es es' : sublist es' es -> keys_ok es -> keys_ok es'.
Proof.
  intros Hsub [Hnodup Hacc]. assert (Hkeys : sublist (fst <$> es') (fst <$> es))
    by now apply fmap_sublist.
  split; [eapply sublist_NoDup; eauto|].
  rewrite Forall_forall in Hacc |- *. eauto using elem_of_sublist.
Qed.

Lemma keys_ok_unexpired now es : keys_ok es -> keys_ok (unexpired now es).
Proof. apply keys_ok_sublist, sublist_filter. Qed.

Lemma keys_ok_remove key es : keys_ok es -> keys_ok (remove key es).
Proof. apply keys_ok_sublist, sublist_filter. Qed.

Lemma keys_ok_snoc key e es :
  keys_ok es -> Main.accepted key = true -> lookup key es = None ->
  keys_ok (es ++ [(key, e)]).
Proof.
  intros [Hnodup Hacc] Hkey Hnew%lookup_None_keys. unfold keys_ok.
  rewrite fmap_app. cbn. split.
  - apply NoDup_app. split; [done|]. split; [|apply NoDup_singleton].
    intros k Hin ->%list_elem_of_singleton. done.
  - apply Forall_app. split; [done|]. now constructor.
Qed.

(** Behind the allow-list nothing is evicted. *)
Lemma evict_keys_ok es : keys_ok es -> evict es = es.
Proof.
  intros Hlen%keys_ok_length. unfold evict, maxsize.
  destruct (Nat.ltb_spec 12 (length es)); [lia|done].
Qed.

Lemma lookup_app_Some key es es' e :
  lookup key es = Some e -> lookup key (es ++ es') = Some e.
Proof.
  induction es as [|[k e0] es IH]; cbn; [discriminate|].
  now destruct (String.eqb k key).
Qed.

Lemma lookup_remove_ne key other es :
  other <> key -> lookup key (remove other es) = lookup key es.
Proof.
  intros Hne. unfold remove. induction es as [|[k e] es IH]; cbn; [done|].
  destruct (decide (String.eqb k other = false)) as [Hk|Hk]; cbn.
  - destruct (String.eqb k key); [done|exact IH].
  - apply not_false_is_true, String.eqb_eq in Hk as ->.
    destruct (String.eqb_spec other key); [done|exact IH].
Qed.

Lemma sent_for_other mode key other log :
  other <> key ->
  sent_for mode key (log ++ round_requests other) = sent_for mode key log.
Proof.
  intros Hne. unfold sent_for, round_requests.
  rewrite filter_app, length_app, !filter_cons, filter_nil.
  rewrite !decide_False by congruence. cbn. lia.
Qed.

(** One call through the allow-list: the keys stay in order, an unexpired entry of
    any airport survives with its value and no request for that airport is
    sent. *)
Lemma step_accepted st c :
  keys_ok (entries st) -> Main.accepted (call_airport c) = true ->
  keys_ok (entries (step st c))
  /\ forall key e,
       lookup key (entries st) = Some e -> call_time c < created e + ttl ->
       lookup key (entries (step st c)) = Some e
       /\ forall mode, sent_for mode key (requests (step st c))
                       = sent_for mode key (requests st).
Proof.
  intros Hkeys Hacc. unfold step, getFlights, cache_key.
  pose proof (keys_ok_unexpired (call_time c) _ Hkeys) as Hlive.
  destruct (lookup (call_airport c) (unexpired (call_time c) (entries st)))
    as [e0|] eqn:Hlook.
  - cbn. split.
    + apply keys_ok_snoc; [now apply keys_ok_remove|done|apply lookup_remove].
    + intros key e Hkey Hfresh. split; [|done].
      pose proof (lookup_still_unexpired _ _ _ _ Hkey Hfresh) as Hkey'.
      destruct (String.eqb_spec (call_airport c) key) as [<-|Hne].
      * rewrite lookup_app_None by apply lookup_remove. rewrite lookup_singleton.
        congruence.
      * apply lookup_app_Some. now rewrite lookup_remove_ne.
  - rewrite get_flight_data_returns. cbn.
    rewrite evict_keys_ok by now apply keys_ok_snoc. split.
    + now apply keys_ok_snoc.
    + intros key e Hkey Hfresh.
      pose proof (lookup_still_unexpired _ _ _ _ Hkey Hfresh) as Hkey'.
      assert (call_airport c <> key) by congruence.
      split; [now apply lookup_app_Some|].
      intros mode. now apply sent_for_other.
Qed.

(** One call through the allow-list sends at most one request of a mode for an
    airport, and if it sends one it leaves an entry created at that time. *)
Lemma step_sends st c mode key :
  sent_for mode key (requests (step st c)) = sent_for mode key (requests st)
  \/ ((sent_for mode key (requests (step st c)) <= sent_for mode key (requests st) + 1)%nat
      /\ exists e, lookup key (entries (step st c)) = Some e /\ created e = call_time c).
Proof.
  destruct (String.eqb_spec (call_airport c) key) as [<-|Hne].
  - destruct (getFlights_stores (call_api c) (call_time c) (call_airport c) st)
      as (e & Hlook & _ & [Hsame|(Hsent & Hcreated & _)]).
    + left. unfold step. now rewrite Hsame.
    + right. unfold step. rewrite Hsent. split; [apply sent_for_round|eauto].
  - left. unfold step, getFlights.
    destruct (lookup (cache_key (call_airport c))
                (unexpired (call_time c) (entries st))); [done|].
    rewrite get_flight_data_returns. cbn. now apply sent_for_other.
Qed.

(** Over any trace of accepted calls inside a window shorter than the TTL,
    each airport is fetched at most once per direction. *)
Theorem window_fetches_each_airport_once (calls : list call) (st : state) (start : Z) :
  keys_ok (entries st) ->
  Forall (fun c => Main.accepted (call_airport c) = true
                   /\ start <= call_time c < start + ttl) calls ->
  forall mode key,
    (sent_for mode key (requests (run calls st))
     <= sent_for mode key (requests st) + 1)%nat.
Proof.
  intros Hkeys Hcalls mode key.
  enough (Hinv : keys_ok (entries (run calls st))
                 /\ (sent_for mode key (requests (run calls st))
                       = sent_for mode key (requests st)
                     \/ (sent_for mode key (requests (run calls st))
                           <= sent_for mode key (requests st) + 1)%nat
                        /\ exists e, lookup key (entries (run calls st)) = Some e
                                     /\ start <= created e))
    by (destruct Hinv as [_ [->|[? _]]]; lia).
  induction calls as [|c calls IH] using rev_ind.
  - cbn. auto.
  - apply Forall_app in Hcalls as [Hcalls [[Hacc Htime] _]%Forall_cons].
    destruct (IH Hcalls) as [Hkeys' Hsent]. unfold run in *. rewrite foldl_snoc.
    destruct (step_accepted _ c Hkeys' Hacc) as [Hkeys'' Hkeep]. split; [done|].
    destruct Hsent as [Hnone|[Hone (e & Hlook & Hcreated)]].
    + destruct (step_sends (foldl step st calls) c mode key)
        as [Hsame|[Hle (e & Hlook & Hcreated)]].
      * left. congruence.
      * right. split; [lia|]. exists e. split; [done|lia].
    + right. destruct (Hkeep key e Hlook ltac:(lia)) as [Hlook' Hsame].
      rewrite Hsame. eauto.
Qed.

End Trace.

(** * Further properties of the pipeline *)

(** ** The fetcher on arbitrary replies *)

Section FetcherReadings.

Variable flight_type : string.

(** One step down an existing path is one successful [get]. *)
Lemma optional_path_get key rest o v dflt :
  optional_path (key :: rest) o = Some v ->
  exists o', py_get o key dflt = Ok o' /\ optional_path rest o' = Some v.
Proof.
  destruct o as [| | | | | |entries]; cbn; try discriminate.
  destruct (dict_lookup key entries) as [w|]; [|discriminate]. eauto.
Qed.

Lemma listed_flights_cons entries items :
  listed_flights (PDict entries :: items) =
  if truthy (default PNone (dict_lookup "flight" entries))
  then default PNone (dict_lookup "flight" entries) :: listed_flights items
  else listed_flights items.
Proof.
  unfold listed_flights. cbn [map]. rewrite filter_cons.
  assert (Hfield : field_or_null ["flight"] (PDict entries)
                   = default PNone (dict_lookup "flight" entries)).
  { unfold field_or_null. cbn. now destruct (dict_lookup "flight" entries). }
  rewrite Hfield.
  destruct (truthy (default PNone (dict_lookup "flight" entries))) eqn:Htruthy.
  - now rewrite decide_True.
  - now rewrite decide_False by congruence.
Qed.

(** The loop over the items: every item must be an object, and then the
    loop collects the truthy [flight] entries. *)
Lemma extract_flights_acc_objects items acc :
  Forall is_object items ->
  foldl
    (fun acc item =>
       flights_list ← acc;
       flight ← py_get item "flight" PNone;
       if truthy flight then Ok (flights_list ++ [flight]) else Ok flights_list)
    (Ok acc) items
  = Ok (acc ++ listed_flights items).
Proof.
  intros Hall. revert acc.
  induction Hall as [|item items Hitem _ IH]; intros acc.
  - cbn. now rewrite app_nil_r.
  - destruct Hitem as [entries ->]. rewrite listed_flights_cons. cbn [foldl mbind exc_bind py_get].
    destruct (truthy (default PNone (dict_lookup "flight" entries))); rewrite IH.
    + now rewrite <- app_assoc.
    + done.
Qed.

Lemma extract_flights_raise_stays items e :
  foldl
    (fun acc item =>
       flights_list ← acc;
       flight ← py_get item "flight" PNone;
       if truthy flight then Ok (flights_list ++ [flight]) else Ok flights_list)
    (Raise e) items
  = Raise e.
Proof. induction items as [|item items IH]; cbn; [done|exact IH]. Qed.

Lemma extract_flights_objects items :
  Forall is_object items -> extract_flights items = Ok (listed_flights items).
Proof. intros Hall. unfold extract_flights. now rewrite extract_flights_acc_objects. Qed.

Lemma extract_flights_acc_not_object items acc :
  ~ Forall is_object items ->
  foldl
    (fun acc item =>
       flights_list ← acc;
       flight ← py_get item "flight" PNone;
       if truthy flight then Ok (flights_list ++ [flight]) else Ok flights_list)
    (Ok acc) items
  = Raise AttributeError.
Proof.
  revert acc. induction items as [|item items IH]; intros acc Hnot.
  - destruct Hnot. constructor.
  - destruct item as [| | | | | |entries]; cbn [foldl mbind exc_bind py_get].
    1-6: apply extract_flights_raise_stays.
    destruct (truthy (default PNone (dict_lookup "flight" entries)));
      apply IH; intros Hall; apply Hnot; constructor; unfold is_object; eauto.
Qed.

Lemma extract_flights_not_object items :
  ~ Forall is_object items -> extract_flights items = Raise AttributeError.
Proof. apply extract_flights_acc_not_object. Qed.

(** The [try] block on a decoded body that passed the status check. *)
Lemma fetch_schedule_decoded r data :
  status r < 400 -> json r = Ok data ->
  fetch_schedule_try (Ok r) flight_type =
  (has_error ← py_contains "error" data;
   if has_error : bool then
     _ ← py_getitem data "error";
     Ok []
   else
     airport ← py_get data "airport" empty_dict;
     plugin_data ← py_get airport "pluginData" empty_dict;
     schedule ← py_get plugin_data "schedule" empty_dict;
     direction ← py_get schedule (api_mode_of flight_type) empty_dict;
     schedule_data ← py_get direction "data" (PList []);
     _ ← py_len schedule_data;
     items ← py_iter schedule_data;
     flights_list ← extract_flights items;
     Ok (simplify_flight_data flights_list flight_type)).
Proof.
  intros Hstatus Hjson. unfold fetch_schedule_try, raise_for_status, api_mode_of. cbn.
  destruct (Z.leb_spec 400 (status r)); [lia|]. cbn. now rewrite Hjson.
Qed.

End FetcherReadings.

(** X1: for a reply that passes the status check and decodes to an object
    without an [error] entry, whose envelope path holds a list of objects,
    the fetch returns the normalization of exactly the truthy [flight]
    entries of the items, in order; items without a [flight] entry, or with
    a null or empty one, are skipped. *)
Theorem fetch_schedule_reads_listed_flights
    (r : response) (flight_type : string)
    (entries : list (string * pyval)) (items : list pyval) :
  status r < 400 ->
  json r = Ok (PDict entries) ->
  dict_lookup "error" entries = None ->
  optional_path (schedule_path flight_type) (PDict entries) = Some (PList items) ->
  Forall is_object items ->
  fetch_schedule (Ok r) flight_type
  = simplify_flight_data (listed_flights items) flight_type.
Proof.
  intros Hstatus Hjson Herror Hpath Hitems. unfold fetch_schedule.
  rewrite (fetch_schedule_decoded _ _ _ Hstatus Hjson). cbn [py_contains]. rewrite Herror.
  unfold schedule_path in Hpath.
  apply (optional_path_get _ _ _ _ empty_dict) in Hpath as (airport & -> & Hpath).
  apply (optional_path_get _ _ _ _ empty_dict) in Hpath as (plugin_data & Hget1 & Hpath).
  apply (optional_path_get _ _ _ _ empty_dict) in Hpath as (schedule & Hget2 & Hpath).
  apply (optional_path_get _ _ _ _ empty_dict) in Hpath as (direction & Hget3 & Hpath).
  apply (optional_path_get _ _ _ _ (PList [])) in Hpath as (schedule_data & Hget4 & Hpath).
  injection Hpath as ->. cbn. rewrite Hget1. cbn. rewrite Hget2. cbn. rewrite Hget3. cbn.
  rewrite Hget4. cbn. now rewrite (extract_flights_objects _ Hitems).
Qed.

Lemma fetch_schedule_reads_listed_flights_witness :
  fetch_schedule
    (Ok (mk_response 200
           (Ok (PDict [("airport", PDict [("pluginData", PDict [("schedule",
                  PDict [("arrivals", PDict [("data", PList
                    [ PDict [("flight", sample_A1)];
                      PDict [("codeshare", PBool true)];
                      PDict [("flight", PNone)];
                      PDict [("flight", sample_A2)] ])])])])])]))))
    "arrival"
  = simplify_flight_data [sample_A1; sample_A2] "arrival".
Proof.
  refine (fetch_schedule_reads_listed_flights _ "arrival" _
            [ PDict [("flight", sample_A1)];
              PDict [("codeshare", PBool true)];
              PDict [("flight", PNone)];
              PDict [("flight", sample_A2)] ] _ _ _ _ _).
  - cbn. lia.
  - reflexivity.
  - reflexivity.
  - reflexivity.
  - repeat constructor; unfold is_object; eauto.
Defined.

(** X2: one schedule item that is not an object (a null, a string, a
    number) voids the whole direction: the fetch returns the empty sequence
    whatever the other items hold. *)
Theorem fetch_schedule_voided_by_one_bad_item
    (r : response) (flight_type : string)
    (entries : list (string * pyval)) (items : list pyval) :
  json r = Ok (PDict entries) ->
  optional_path (schedule_path flight_type) (PDict entries) = Some (PList items) ->
  ~ Forall is_object items ->
  fetch_schedule (Ok r) flight_type = [].
Proof.
  intros Hjson Hpath Hitems. unfold fetch_schedule.
  destruct (Z.lt_ge_cases (status r) 400) as [Hstatus|Hstatus].
  - rewrite (fetch_schedule_decoded _ _ _ Hstatus Hjson). cbn [py_contains].
    destruct (dict_lookup "error" entries) as [detail|] eqn:Herror.
    + cbn. now rewrite Herror.
    + unfold schedule_path in Hpath.
      apply (optional_path_get _ _ _ _ empty_dict) in Hpath as (airport & -> & Hpath).
      apply (optional_path_get _ _ _ _ empty_dict) in Hpath as (plugin_data & Hget1 & Hpath).
      apply (optional_path_get _ _ _ _ empty_dict) in Hpath as (schedule & Hget2 & Hpath).
      apply (optional_path_get _ _ _ _ empty_dict) in Hpath as (direction & Hget3 & Hpath).
      apply (optional_path_get _ _ _ _ (PList [])) in Hpath as (schedule_data & Hget4 & Hpath).
      injection Hpath as ->. cbn. rewrite Hget1. cbn. rewrite Hget2. cbn. rewrite Hget3. cbn.
      rewrite Hget4. cbn. now rewrite (extract_flights_not_object _ Hitems).
  - unfold fetch_schedule_try, raise_for_status. cbn.
    now destruct (Z.leb_spec 400 (status r)); [|lia].
Qed.

Lemma fetch_schedule_voided_by_one_bad_item_witness :
  fetch_schedule
    (Ok (mk_response 200
           (Ok (PDict [("airport", PDict [("pluginData", PDict [("schedule",
                  PDict [("departures", PDict [("data", PList
                    [ PDict [("flight", sample_D1)]; PNone ])])])])])]))))
    "departure"
  = [].
Proof.
  refine (fetch_schedule_voided_by_one_bad_item _ "departure" _
            [ PDict [("flight", sample_D1)]; PNone ] _ _ _).
  - reflexivity.
  - reflexivity.
  - intros Hall. apply Forall_cons in Hall as [_ Hall].
    apply Forall_cons in Hall as [[entries Hnone] _]. discriminate.
Defined.

Lemma is_object_dec v : {is_object v} + {~ is_object v}.
Proof.
  destruct v as [| | | | | |entries];
    try (right; intros [entries' Heq]; discriminate).
  left. unfold is_object. eauto.
Qed.

Lemma extract_flights_Ok items flights :
  extract_flights items = Ok flights ->
  Forall is_object items /\ flights = listed_flights items.
Proof.
  intros Hok. destruct (List.Forall_dec is_object is_object_dec items) as [Hall|Hnot].
  - rewrite (extract_flights_objects _ Hall) in Hok. injection Hok as <-. done.
  - rewrite (extract_flights_not_object _ Hnot) in Hok. discriminate.
Qed.

Lemma py_get_default_path o key dflt o' rest :
  py_get o key dflt = Ok o' ->
  (exists w, optional_path [key] o = Some w /\ o' = w
             /\ optional_path (key :: rest) o = optional_path rest w)
  \/ (o' = dflt /\ optional_path [key] o = None).
Proof.
  intros (entries & -> & ->)%py_get_Ok. cbn.
  destruct (dict_lookup key entries) as [w|]; [left; eauto|right; done].
Qed.

(** X3: the fetch returns records only from a complete envelope: a reply
    that passed the status check and decoded to an object without an
    [error] entry, whose path [airport.pluginData.schedule.<mode>.data]
    holds a list of objects.  In every other case the result is empty. *)
Theorem fetch_schedule_nonempty_needs_envelope (reply : upstream) (flight_type : string) :
  fetch_schedule reply flight_type <> [] ->
  exists r entries items,
    reply = Ok r
    /\ status r < 400
    /\ json r = Ok (PDict entries)
    /\ dict_lookup "error" entries = None
    /\ optional_path (schedule_path flight_type) (PDict entries) = Some (PList items)
    /\ Forall is_object items
    /\ fetch_schedule reply flight_type
       = simplify_flight_data (listed_flights items) flight_type.
Proof.
  unfold fetch_schedule.
  destruct (fetch_schedule_try reply flight_type) as [res|e] eqn:Htry; [|done].
  intros Hres. unfold fetch_schedule_try in Htry. fold (api_mode_of flight_type) in Htry.
  apply bind_Ok in Htry as (r & -> & Htry).
  apply bind_Ok in Htry as ([] & Hstatus & Htry).
  apply bind_Ok in Htry as (data & Hjson & Htry).
  apply bind_Ok in Htry as (has_error & Hcontains & Htry).
  destruct has_error.
  { apply bind_Ok in Htry as (_ & _ & [= <-]). done. }
  apply bind_Ok in Htry as (airport & Hairport & Htry).
  apply bind_Ok in Htry as (plugin_data & Hplugin & Htry).
  apply bind_Ok in Htry as (schedule & Hschedule & Htry).
  apply bind_Ok in Htry as (direction & Hdirection & Htry).
  apply bind_Ok in Htry as (schedule_data & Hdata & Htry).
  apply bind_Ok in Htry as (len & Hlen & Htry).
  apply bind_Ok in Htry as (items & Hiter & Htry).
  apply bind_Ok in Htry as (flights & Hextract & [= <-]).
  apply extract_flights_Ok in Hextract as [Hitems ->].
  assert (Hsome : items <> []) by (intros ->; now apply Hres).
  assert (Hstatus' : status r < 400).
  { unfold raise_for_status in Hstatus.
    destruct (Z.leb_spec 400 (status r)); [discriminate|done]. }
  destruct (py_get_Ok _ _ _ _ Hairport) as (entries & -> & _).
  assert (Herror : dict_lookup "error" entries = None).
  { cbn in Hcontains. now destruct (dict_lookup "error" entries). }
  assert (Hlist : schedule_data = PList items).
  { destruct schedule_data as [| | | | s |l|es]; cbn in Hlen, Hiter; try discriminate.
    - injection Hiter as <-. destruct s as [|c s]; [done|].
      cbn in Hitems. apply Forall_cons in Hitems as [[? [=]] _].
    - now injection Hiter as ->.
    - injection Hiter as <-. destruct es as [|[k v] es]; [done|].
      cbn in Hitems. apply Forall_cons in Hitems as [[? [=]] _]. }
  subst schedule_data.
  assert (Hpath : optional_path (schedule_path flight_type) (PDict entries)
                  = Some (PList items)).
  { unfold schedule_path.
    destruct (py_get_default_path _ _ _ _
                ["pluginData"; "schedule"; api_mode_of flight_type; "data"] Hairport)
      as [(w1 & _ & -> & ->)|[-> _]];
      [|cbn in Hplugin; injection Hplugin as <-; cbn in Hschedule;
        injection Hschedule as <-; cbn in Hdirection; injection Hdirection as <-;
        cbn in Hdata; injection Hdata as <-; done].
    destruct (py_get_default_path _ _ _ _
                ["schedule"; api_mode_of flight_type; "data"] Hplugin)
      as [(w2 & _ & -> & ->)|[-> _]];
      [|cbn in Hschedule; injection Hschedule as <-; cbn in Hdirection;
        injection Hdirection as <-; cbn in Hdata; injection Hdata as <-; done].
    destruct (py_get_default_path _ _ _ _ [api_mode_of flight_type; "data"] Hschedule)
      as [(w3 & _ & -> & ->)|[-> _]];
      [|cbn in Hdirection; injection Hdirection as <-; cbn in Hdata;
        injection Hdata as <-; done].
    destruct (py_get_default_path _ _ _ _ ["data"] Hdirection)
      as [(w4 & _ & -> & ->)|[-> _]];
      [|cbn in Hdata; injection Hdata as <-; done].
    destruct (py_get_default_path _ _ _ _ [] Hdata)
      as [(w5 & Hw & Heq & _)|[Heq _]]; [now rewrite Hw, <- Heq|].
    injection Heq as Heq. now destruct Hsome. }
  exists r, entries, items. repeat split; done.
Qed.

Lemma fetch_schedule_nonempty_needs_envelope_witness :
  exists r entries items,
    sample_api "arrivals" "DXB" = Ok r
    /\ status r < 400
    /\ json r = Ok (PDict entries)
    /\ dict_lookup "error" entries = None
    /\ optional_path (schedule_path "arrival") (PDict entries) = Some (PList items)
    /\ Forall is_object items
    /\ fetch_schedule (sample_api "arrivals" "DXB") "arrival"
       = simplify_flight_data (listed_flights items) "arrival".
Proof.
  apply (fetch_schedule_nonempty_needs_envelope (sample_api "arrivals" "DXB") "arrival").
  vm_compute. discriminate.
Defined.

(** ** The aggregation on arbitrary replies *)

(** Whatever the reply, what a fetch returns is a normalized batch. *)
Lemma fetch_schedule_is_normalized reply flight_type :
  exists flights, fetch_schedule reply flight_type = simplify_flight_data flights flight_type.
Proof.
  unfold fetch_schedule.
  destruct (fetch_schedule_try reply flight_type) as [res|e] eqn:Htry; [|now exists []].
  unfold fetch_schedule_try in Htry.
  apply bind_Ok in Htry as (r & _ & Htry).
  apply bind_Ok in Htry as (? & _ & Htry).
  apply bind_Ok in Htry as (data & _ & Htry).
  apply bind_Ok in Htry as (has_error & _ & Htry).
  destruct has_error.
  { apply bind_Ok in Htry as (_ & _ & [= <-]). now exists []. }
  do 8 (apply bind_Ok in Htry as (? & _ & Htry)).
  injection Htry as <-. eauto.
Qed.

Lemma fetch_schedule_records reply flight_type :
  Forall (fun record => exists flight, is_flight_record flight_type flight record)
    (fetch_schedule reply flight_type).
Proof.
  destruct (fetch_schedule_is_normalized reply flight_type) as [flights ->].
  apply Forall_forall. intros record Hin%list_elem_of_In.
  apply simplify_flight_data_In in Hin as (flight & _ & Hok).
  apply simplify_flight_Ok in Hok as (t & Hconv & ->).
  exists flight. now apply flight_record_is_flight_record.
Qed.

(** X4: for every provider behaviour [get_flight_data] returns without an
    exception, and its result splits into FlightRecords of type [arrival]
    followed by FlightRecords of type [departure]: no record of another
    type, and no departure before an arrival. *)
Theorem get_flight_data_arrivals_then_departures (api : provider) (airport_code : string) :
  exists arrivals departures,
    get_flight_data api airport_code = Ok (arrivals ++ departures)
    /\ Forall (fun record => exists flight, is_flight_record "arrival" flight record) arrivals
    /\ Forall (fun record => exists flight, is_flight_record "departure" flight record)
         departures.
Proof.
  exists (fetch_schedule (api "arrivals" airport_code) "arrival"),
         (fetch_schedule (api "departures" airport_code) "departure").
  split; [apply get_flight_data_returns|]. split; apply fetch_schedule_records.
Qed.

Lemma merge_results_acc results acc :
  foldl
    (fun acc result =>
       all_flights ← acc;
       match result with
       | Ok flights => Ok (all_flights ++ flights)
       | Raise e => if is_Exception e then Ok all_flights else Raise TypeError
       end)
    (Ok acc) results
  = if only_Exceptions results then Ok (acc ++ returned_flights results)
    else Raise TypeError.
Proof.
  revert acc. induction results as [|result results IH]; intros acc.
  - cbn. now rewrite app_nil_r.
  - cbn [foldl mbind exc_bind]. unfold only_Exceptions, returned_flights in *.
    cbn [forallb flat_map]. destruct result as [flights|e].
    + rewrite IH. cbn [andb]. now rewrite <- app_assoc.
    + destruct (is_Exception e); cbn [andb].
      * now rewrite IH.
      * clear IH. induction results as [|result results IH]; [done|exact IH].
Qed.

(** X5: the merge loop skips every result that is an [Exception] and
    concatenates the returned lists in task order; a single result that is
    an exception outside [Exception] (a cancellation) makes the whole
    aggregation fail with [TypeError], whatever the other tasks returned. *)
Theorem merge_results_skips_exceptions (results : list (exc (list pyval))) :
  merge_results results =
  if only_Exceptions results then Ok (returned_flights results) else Raise TypeError.
Proof. unfold merge_results. now rewrite merge_results_acc. Qed.

(** ** The timestamp rule outside the calendar *)

Section TimestampBounds.

Import DateTime.

Lemma ord2ymd_year_above n : 3652059 < n -> 9999 < fst (fst (ord2ymd n)).
Proof.
  intros Hn. unfold ord2ymd.
  repeat match goal with
         | |- context [if ?b then _ else _] => destruct b eqn:?
         end; cbn [fst snd]; Z.div_mod_to_equations; lia.
Qed.

Lemma ord2ymd_year_below n : n < 1 -> fst (fst (ord2ymd n)) < 1.
Proof.
  intros Hn. unfold ord2ymd.
  repeat match goal with
         | |- context [if ?b then _ else _] => destruct b eqn:?
         end; cbn [fst snd]; Z.div_mod_to_equations; lia.
Qed.

Lemma fromtimestamp_utc_out_of_range n :
  n < min_timestamp \/ max_timestamp < n ->
  raises (fromtimestamp_utc (PInt n)) = true.
Proof.
  unfold min_timestamp, max_timestamp. intros Hn.
  unfold fromtimestamp_utc, time_t_of_int.
  destruct ((time_t_min <=? n) && (n <=? time_t_max)); [|done]. cbn [mbind exc_bind].
  unfold gmtime.
  destruct ((-67768040609740800 <=? n) && (n <=? 67768036191676799)); [|done].
  pose proof (ord2ymd_year_above (n / 86400 + epoch_ordinal)) as Habove.
  pose proof (ord2ymd_year_below (n / 86400 + epoch_ordinal)) as Hbelow.
  destruct (ord2ymd (n / 86400 + epoch_ordinal)) as [[y m] d].
  cbn [fst] in Habove, Hbelow. cbn [mbind exc_bind year].
  unfold epoch_ordinal in *.
  destruct Hn as [Hn|Hn].
  - assert (y < 1) by (apply Hbelow; Z.div_mod_to_equations; lia).
    destruct (Z.leb_spec 1 y); [lia|done].
  - assert (9999 < y) by (apply Habove; Z.div_mod_to_equations; lia).
    destruct (Z.leb_spec 1 y); [|done]. destruct (Z.leb_spec y 9999); [lia|done].
Qed.

Lemma convert_timestamp_out_of_range_aux n :
  n < min_timestamp \/ max_timestamp < n -> raises (convert_timestamp (PInt n)) = true.
Proof.
  intros Hout. pose proof (fromtimestamp_utc_out_of_range n Hout) as Hraise.
  unfold convert_timestamp. cbn [truthy].
  destruct (Z.eqb_spec n 0) as [->|_].
  { unfold min_timestamp, max_timestamp in Hout. lia. }
  cbn [negb]. now destruct (fromtimestamp_utc (PInt n)).
Qed.

End TimestampBounds.

(** X6: on integers the timestamp conversion raises exactly outside the
    range of [datetime], from 0001-01-01 00:00:00 to 9999-12-31 23:59:59 UTC
    in seconds (a timestamp in milliseconds, for one, is refused); inside
    the range it returns [None] for 0 and, for any other value, the string
    printed for the valid UTC datetime that denotes it. *)
Theorem convert_timestamp_raises_outside_calendar (n : Z) :
  raises (convert_timestamp (PInt n))
  = negb ((min_timestamp <=? n) && (n <=? max_timestamp))
  /\ (n = 0 -> convert_timestamp (PInt n) = Ok PNone)
  /\ (n <> 0 -> min_timestamp <= n <= max_timestamp ->
      exists dt,
        valid_datetime dt
        /\ timegm dt = n
        /\ convert_timestamp (PInt n) = Ok (PStr (DateTime.strftime dt))).
Proof.
  assert (Hinside : n <> 0 -> min_timestamp <= n <= max_timestamp ->
            exists dt,
              valid_datetime dt
              /\ timegm dt = n
              /\ convert_timestamp (PInt n) = Ok (PStr (DateTime.strftime dt))).
  { intros Hnz Hrange.
    destruct (fromtimestamp_utc_int n Hrange) as (dt & Hdt & Hvalid & Hinv).
    exists dt. split; [done|]. split; [done|].
    unfold convert_timestamp. cbn [truthy].
    destruct (Z.eqb_spec n 0); [done|]. cbn [negb]. now rewrite Hdt. }
  split; [|split; [now intros ->|exact Hinside]].
  destruct ((min_timestamp <=? n) && (n <=? max_timestamp)) eqn:Hrange; cbn [negb].
  - apply andb_true_iff in Hrange as [Hlo%Z.leb_le Hhi%Z.leb_le].
    destruct (Z.eq_dec n 0) as [->|Hnz]; [reflexivity|].
    destruct (Hinside Hnz (conj Hlo Hhi)) as (dt & _ & _ & ->). reflexivity.
  - assert (Hout : n < min_timestamp \/ max_timestamp < n).
    { apply andb_false_iff in Hrange as [H%Z.leb_gt|H%Z.leb_gt]; auto. }
    now apply convert_timestamp_out_of_range_aux.
Qed.

(** X7: a raw record whose schedule time cannot be converted is dropped as
    a whole, it is not kept with a null time: so for a time that is a
    non-empty string, and for an integer outside the calendar. *)
Theorem unconvertible_time_drops_record (flight_type : string) (flight : pyval) :
  (exists s, field_or_null (scheduled_path flight_type) flight = PStr s /\ s <> "")
  \/ (exists n, field_or_null (scheduled_path flight_type) flight = PInt n
                /\ (n < min_timestamp \/ max_timestamp < n)) ->
  simplify_flight_data [flight] flight_type = [].
Proof.
  intros Hbad. rewrite simplify_flight_data_cons.
  destruct (simplify_flight flight_type flight) as [record|e] eqn:Hflight; [|done].
  apply simplify_flight_Ok in Hflight as (t & Hconv & _).
  destruct Hbad as [(s & Hfield & Hs)|(n & Hfield & Hn)]; rewrite Hfield in Hconv.
  - unfold convert_timestamp in Hconv. cbn in Hconv.
    destruct (String.eqb_spec s ""); [done|]. discriminate.
  - pose proof (convert_timestamp_out_of_range_aux n Hn) as Hraise.
    rewrite Hconv in Hraise. discriminate.
Qed.

Lemma unconvertible_time_drops_record_witness :
  simplify_flight_data
    [PDict [("identification", PDict [("number", PDict [("default", PStr "EK202")])]);
            ("time", PDict [("scheduled", PDict [("arrival", PInt 1700000000000)])])]]
    "arrival"
  = [].
Proof.
  apply unconvertible_time_drops_record. right. exists 1700000000000. split.
  - reflexivity.
  - right. unfold max_timestamp. lia.
Defined.

(** ** What the normalizer needs and what it copies *)

(** A [get] on the result of a [get] with default [{}]: what was found under
    the first key is an object. *)
Lemma py_get_twice entries key sub key' dflt v w :
  py_get (PDict entries) key empty_dict = Ok sub ->
  py_get sub key' dflt = Ok v ->
  dict_lookup key entries = Some w -> is_object w.
Proof.
  cbn. intros [= <-] Hget Hfound. rewrite Hfound in Hget. cbn in Hget.
  apply py_get_Ok in Hget as (es & -> & _). now exists es.
Qed.

(** X8: the normalizer keeps a raw record only if the record is an object
    in which each of [identification], [status], [aircraft], [airport] and
    [time], when present, is an object too (a null there drops the record),
    while [airline] may also be null or any other falsy value. *)
Theorem kept_record_has_object_parts (flight_type : string) (flight record : pyval) :
  simplify_flight flight_type flight = Ok record ->
  exists entries,
    flight = PDict entries
    /\ (forall key w,
          In key ["identification"; "status"; "aircraft"; "airport"; "time"] ->
          dict_lookup key entries = Some w -> is_object w)
    /\ (forall w,
          dict_lookup "airline" entries = Some w -> truthy w = true -> is_object w).
Proof.
  unfold simplify_flight. intros H.
  apply bind_Ok in H as (identification & Hid & H).
  destruct (py_get_Ok _ _ _ _ Hid) as (entries & -> & _).
  apply bind_Ok in H as (airline_info & Hai & H).
  apply bind_Ok in H as (status_info & Hsi & H).
  apply bind_Ok in H as (aircraft_info & Hci & H).
  apply bind_Ok in H as (airport_info & Hpi & H).
  apply bind_Ok in H as (time_info & Hti & H).
  apply bind_Ok in H as (number & Hnum & H).
  apply bind_Ok in H as (flightNumber & Hfn & H).
  apply bind_Ok in H as (airline & Hal & H).
  apply bind_Ok in H as (status_text & Hst & H).
  apply bind_Ok in H as (model & Hmo & H).
  apply bind_Ok in H as (aircraftModel & Ham & H).
  assert (Hairport : exists k v, py_get airport_info k empty_dict = Ok v).
  { destruct (String.eqb flight_type "arrival");
      apply bind_Ok in H as (v & Hv & _);
      [exists "origin", v|exists "destination", v]; exact Hv. }
  assert (Htime : exists v, py_get time_info "scheduled" empty_dict = Ok v).
  { destruct (String.eqb flight_type "arrival");
      do 7 (apply bind_Ok in H as (? & _ & H));
      apply bind_Ok in H as (v & Hv & _); exists v; exact Hv. }
  destruct Hairport as (k & origin & Hor). destruct Htime as (scheduled & Hsc).
  exists entries. split; [done|]. split.
  - intros key w Hin Hfound. cbn in Hin.
    destruct Hin as [<-|[<-|[<-|[<-|[<-|[]]]]]].
    + exact (py_get_twice _ _ _ _ _ _ _ Hid Hnum Hfound).
    + exact (py_get_twice _ _ _ _ _ _ _ Hsi Hst Hfound).
    + exact (py_get_twice _ _ _ _ _ _ _ Hci Hmo Hfound).
    + exact (py_get_twice _ _ _ _ _ _ _ Hpi Hor Hfound).
    + exact (py_get_twice _ _ _ _ _ _ _ Hti Hsc Hfound).
  - intros w Hfound Htruthy. cbn in Hai. injection Hai as <-.
    rewrite Hfound in Hal. cbn in Hal. rewrite Htruthy in Hal.
    apply py_get_Ok in Hal as (es & -> & _). now exists es.
Qed.

Lemma kept_record_has_object_parts_witness :
  exists entries,
    sample_A2 = PDict entries
    /\ (forall key w,
          In key ["identification"; "status"; "aircraft"; "airport"; "time"] ->
          dict_lookup key entries = Some w -> is_object w)
    /\ (forall w,
          dict_lookup "airline" entries = Some w -> truthy w = true -> is_object w).
Proof.
  apply (kept_record_has_object_parts "arrival" sample_A2
           (flight_record "arrival" sample_A2 PNone)).
  reflexivity.
Defined.

(** X9: the normalizer copies and never invents: in a record it returns,
    every field but the schedule time holds exactly the value found at its
    nested path in the raw record, and the schedule time is the conversion
    of the value found at the time path. *)
Theorem kept_record_copies_fields (flight_type : string) (flight record : pyval) :
  simplify_flight flight_type flight = Ok record ->
  exists entries,
    record = PDict entries
    /\ (forall key path v,
          In (key, path) (field_paths flight_type) -> key <> "scheduledTime" ->
          optional_path path flight = Some v ->
          dict_lookup key entries = Some v)
    /\ (forall v scheduledTime,
          optional_path (scheduled_path flight_type) flight = Some v ->
          dict_lookup "scheduledTime" entries = Some scheduledTime ->
          convert_timestamp v = Ok scheduledTime).
Proof.
  intros (t & Hconv & ->)%simplify_flight_Ok.
  unfold flight_record, field_paths, scheduled_path in *. eexists. split; [reflexivity|].
  destruct (String.eqb flight_type "arrival"); split.
  - intros key path v Hin Hkey Hfound. cbn in Hin.
    repeat (destruct Hin as [[= <- <-]|Hin]); try done;
      cbn; unfold field_or_null; now rewrite Hfound.
  - intros v scheduledTime Hfound [= <-]. unfold field_or_null in Hconv.
    now rewrite Hfound in Hconv.
  - intros key path v Hin Hkey Hfound. cbn in Hin.
    repeat (destruct Hin as [[= <- <-]|Hin]); try done;
      cbn; unfold field_or_null; now rewrite Hfound.
  - intros v scheduledTime Hfound [= <-]. unfold field_or_null in Hconv.
    now rewrite Hfound in Hconv.
Qed.

Lemma kept_record_copies_fields_witness :
  exists entries,
    flight_record "departure" sample_D1 (PStr "2023-11-14 22:13:20 UTC") = PDict entries
    /\ (forall key path v,
          In (key, path) (field_paths "departure") -> key <> "scheduledTime" ->
          optional_path path sample_D1 = Some v ->
          dict_lookup key entries = Some v)
    /\ (forall v scheduledTime,
          optional_path (scheduled_path "departure") sample_D1 = Some v ->
          dict_lookup "scheduledTime" entries = Some scheduledTime ->
          convert_timestamp v = Ok scheduledTime).
Proof.
  apply (kept_record_copies_fields "departure" sample_D1). reflexivity.
Defined.

(** ** The request handler and the language-model call *)

Section Handler.

Import LlmService Api.

Lemma get_answer_no_data client question airport_code :
  get_answer_from_llm client question [] airport_code = Ok (Some no_data_message).
Proof. reflexivity. Qed.

(** A provider outage leaves both fetches empty. *)
Lemma outage_gives_no_flights api airport_code :
  fetch_failure (api "arrivals" airport_code) ->
  fetch_failure (api "departures" airport_code) ->
  get_flight_data api airport_code = Ok [].
Proof.
  intros Harr Hdep. rewrite get_flight_data_returns. unfold fetch_schedule.
  destruct (fetch_failure_leaves_try _ "arrival" Harr) as [->|[e ->]];
    destruct (fetch_failure_leaves_try _ "departure" Hdep) as [->|[e' ->]]; reflexivity.
Qed.

End Handler.

(** X10: when both upstream requests fail for an accepted airport and the
    call reaches [get_flight_data], [ask_question] answers with the fixed
    no-data text, whatever the language model would have said: the outage is
    no error to the user. *)
Theorem outage_answers_no_data
    (api : provider) (client : LlmService.llm_client) (request : Api.QueryRequest) :
  Main.accepted (Api.airport request) = true ->
  fetch_failure (api "arrivals" (Api.airport request)) ->
  fetch_failure (api "departures" (Api.airport request)) ->
  Api.ask_question (get_flight_data api) client request
  = Ok (Api.QueryResponse LlmService.no_data_message).
Proof.
  intros Hacc Harr Hdep. unfold Api.ask_question. rewrite Hacc. cbn [negb].
  rewrite (outage_gives_no_flights _ _ Harr Hdep). reflexivity.
Qed.

Lemma outage_answers_no_data_witness :
  Api.ask_question
    (get_flight_data (fun mode iata => Raise ClientConnectionError))
    (fun question flight_data airport_code => Ok (Some "42 flights"))
    (Api.mk_request "HKG" "How many flights arrive from Japan?")
  = Ok (Api.QueryResponse LlmService.no_data_message).
Proof.
  apply outage_answers_no_data.
  - reflexivity.
  - apply transport_failure.
  - apply transport_failure.
Defined.

(** X11: the language model is consulted only for an accepted airport with
    flight data: for a rejected airport, for an empty data set and for a
    failed data call, the reply of [ask_question] does not depend on the
    client at all. *)
Theorem llm_consulted_only_with_data
    (cached_get_flight_data : string -> exc (list pyval))
    (client client' : LlmService.llm_client) (request : Api.QueryRequest) :
  Main.accepted (Api.airport request) = false
  \/ cached_get_flight_data (Api.airport request) = Ok []
  \/ raises (cached_get_flight_data (Api.airport request)) = true ->
  Api.ask_question cached_get_flight_data client request
  = Api.ask_question cached_get_flight_data client' request.
Proof.
  unfold Api.ask_question. intros [Hrej|[Hnone|Hraise]].
  - now rewrite Hrej.
  - destruct (Main.accepted (Api.airport request)); [|done]. cbn [negb].
    now rewrite Hnone.
  - destruct (Main.accepted (Api.airport request)); [|done]. cbn [negb].
    now destruct (cached_get_flight_data (Api.airport request)).
Qed.

Lemma llm_consulted_only_with_data_witness :
  Api.ask_question (get_flight_data sample_api)
    (fun question flight_data airport_code => Ok (Some "42 flights"))
    (Api.mk_request "JFK" "How many flights arrive from Japan?")
  = Api.ask_question (get_flight_data sample_api)
      (fun question flight_data airport_code => Raise TimeoutError)
      (Api.mk_request "JFK" "How many flights arrive from Japan?").
Proof.
  apply llm_consulted_only_with_data. left. reflexivity.
Defined.

(** X12: [ask_question] on top of [get_flight_data] never ends in an
    exception as long as the client returns text or fails with an
    [Exception]: whatever the provider sends, the reply is the 400 error
    for an airport outside the allow-list and a [QueryResponse] otherwise. *)
Theorem ask_question_always_replies
    (api : provider) (client : LlmService.llm_client) (request : Api.QueryRequest) :
  (forall question flight_data airport_code,
     match client question flight_data airport_code with
     | Ok (Some _) => True
     | Ok None => False
     | Raise e => is_Exception e = true
     end) ->
  exists reply,
    Api.ask_question (get_flight_data api) client request = Ok reply
    /\ match reply with
       | Api.HTTPException status_code _ =>
           status_code = 400 /\ Main.accepted (Api.airport request) = false
       | Api.QueryResponse _ => Main.accepted (Api.airport request) = true
       end.
Proof.
  intros Hclient. unfold Api.ask_question.
  destruct (Main.accepted (Api.airport request)) eqn:Hacc; cbn [negb].
  - rewrite get_flight_data_returns. cbn [mbind exc_bind].
    unfold LlmService.get_answer_from_llm.
    set (flights := fetch_schedule _ "arrival" ++ fetch_schedule _ "departure").
    destruct (negb (truthy (PList flights))); [eexists; split; [reflexivity|done]|].
    specialize (Hclient (Api.question request) flights (Api.airport request)).
    destruct (client (Api.question request) flights (Api.airport request))
      as [[text|]|e]; [| done |rewrite Hclient]; eexists; split; reflexivity || done.
  - eexists. split; [reflexivity|]. done.
Qed.

Lemma ask_question_always_replies_witness :
  exists reply,
    Api.ask_question (get_flight_data sample_api)
      (fun question flight_data airport_code => Raise TimeoutError)
      (Api.mk_request "DXB" "Which flights land from London?") = Ok reply
    /\ match reply with
       | Api.HTTPException status_code _ => status_code = 400 /\ Main.accepted "DXB" = false
       | Api.QueryResponse _ => Main.accepted "DXB" = true
       end.
Proof.
  apply (ask_question_always_replies sample_api
           (fun question flight_data airport_code => Raise TimeoutError)
           (Api.mk_request "DXB" "Which flights land from London?")).
  intros question flight_data airport_code. reflexivity.
Defined.

(** ** The schedule time can be read back *)

Section ReadBack.

Import DateTime.

Lemma holds_on_range_spec check depth lo n :
  holds_on_range check depth lo = true ->
  lo <= n < lo + 2 ^ Z.of_nat depth -> check n = true.
Proof.
  revert lo. induction depth as [|depth IH]; intros lo Hok Hn.
  - cbn in Hok, Hn. now replace n with lo by lia.
  - cbn [holds_on_range] in Hok. apply andb_true_iff in Hok as [Hlow Hhigh].
    rewrite Nat2Z.inj_succ, Z.pow_succ_r in Hn by lia.
    destruct (Z.lt_ge_cases n (lo + 2 ^ Z.of_nat depth)).
    + apply (IH lo); [done|lia].
    + apply (IH (lo + 2 ^ Z.of_nat depth)); [done|lia].
Qed.

(** The printed year, for every four-digit year, by computation. *)
Lemma decimal_four_digits y : 1000 <= y <= 9999 -> decimal y = four_digits y.
Proof.
  intros Hy.
  assert (Hall : holds_on_range
                   (fun y => (9999 <? y) || String.eqb (decimal y) (four_digits y))
                   14 1000 = true) by (vm_compute; reflexivity).
  apply (holds_on_range_spec _ _ _ y) in Hall;
    [|change (2 ^ Z.of_nat 14) with 16384; lia].
  apply orb_true_iff in Hall as [Hout|Heq]; [lia|now apply String.eqb_eq].
Qed.

Lemma two_digits_two_chars n : 0 <= n <= 99 -> two_digits n = two_chars n.
Proof.
  intros Hn.
  assert (Hall : holds_on_range
                   (fun n => (99 <? n) || String.eqb (two_digits n) (two_chars n))
                   7 0 = true) by (vm_compute; reflexivity).
  apply (holds_on_range_spec _ _ _ n) in Hall;
    [|change (2 ^ Z.of_nat 7) with 128; lia].
  apply orb_true_iff in Hall as [Hout|Heq]; [lia|now apply String.eqb_eq].
Qed.

Lemma digit_value_char k : 0 <= k <= 9 -> digit_value (digit_char k) = k.
Proof.
  intros Hk.
  assert (k = 0 \/ k = 1 \/ k = 2 \/ k = 3 \/ k = 4 \/ k = 5 \/ k = 6 \/ k = 7
          \/ k = 8 \/ k = 9) as Hcases by lia.
  destruct Hcases as [->|[->|[->|[->|[->|[->|[->|[->|[->| ->]]]]]]]]]; reflexivity.
Qed.

Lemma month_length_le y m : month_length y m <= 31.
Proof.
  unfold month_length. destruct ((m =? 2) && is_leap y) eqn:Hfeb.
  - apply andb_true_iff in Hfeb as [->%Z.eqb_eq _]. cbn. lia.
  - unfold days_in_month.
    repeat match goal with
           | |- context [match ?x with _ => _ end] => destruct x
           end; lia.
Qed.

(** Reading back what [strftime] printed gives the datetime again. *)
Lemma parse_strftime dt :
  valid_datetime dt -> 1000 <= year dt -> parse_utc (strftime dt) = dt.
Proof.
  intros (Hy & Hm & Hd & Hh & Hmi & Hs) Hy'.
  pose proof (month_length_le (year dt) (month dt)) as Hday.
  unfold strftime.
  rewrite (decimal_four_digits (year dt)) by lia.
  rewrite !two_digits_two_chars by lia.
  unfold four_digits, two_chars, parse_utc, number_at.
  cbv [String.append String.substring list_ascii_of_string fold_left].
  rewrite !digit_value_char by (Z.div_mod_to_equations; lia).
  destruct dt as [y m d h mi s]. cbn [year month day hour minute second] in *.
  f_equal; Z.div_mod_to_equations; lia.
Qed.

Lemma ord2ymd_year_four_digits n : 364878 <= n -> 1000 <= fst (fst (ord2ymd n)).
Proof.
  intros Hn. unfold ord2ymd.
  repeat match goal with
         | |- context [if ?b then _ else _] => destruct b eqn:?
         end; cbn [fst snd]; Z.div_mod_to_equations; lia.
Qed.

End ReadBack.

(** X13: the schedule time can be read back: for every nonzero integer
    timestamp from 1000-01-01 to 9999-12-31 UTC, the string that
    [convert_timestamp] returns, read at its fixed positions, is a datetime
    that denotes exactly the timestamp. *)
Theorem schedule_time_reads_back (n : Z) :
  n <> 0 -> first_four_digit_year <= n <= max_timestamp ->
  exists s,
    convert_timestamp (PInt n) = Ok (PStr s)
    /\ timegm (parse_utc s) = n.
Proof.
  intros Hnz Hrange.
  assert (Hrange' : min_timestamp <= n <= max_timestamp).
  { unfold first_four_digit_year, min_timestamp in *. lia. }
  destruct (fromtimestamp_utc_int n Hrange') as (dt & Hdt & Hvalid & Hinv).
  exists (DateTime.strftime dt). split.
  - unfold convert_timestamp. cbn [truthy].
    destruct (Z.eqb_spec n 0); [done|]. cbn [negb]. now rewrite Hdt.
  - rewrite parse_strftime; [done|done|].
    unfold DateTime.fromtimestamp_utc, DateTime.time_t_of_int in Hdt.
    destruct ((DateTime.time_t_min <=? n) && (n <=? DateTime.time_t_max)); [|done].
    cbn [mbind exc_bind] in Hdt. unfold DateTime.gmtime in Hdt.
    destruct ((-67768040609740800 <=? n) && (n <=? 67768036191676799)); [|done].
    pose proof (ord2ymd_year_four_digits (n / 86400 + DateTime.epoch_ordinal)) as Hyear.
    destruct (DateTime.ord2ymd (n / 86400 + DateTime.epoch_ordinal)) as [[y m] d].
    cbn [mbind exc_bind DateTime.year] in Hdt.
    destruct ((1 <=? y) && (y <=? 9999)); [|done]. injection Hdt as <-.
    cbn [DateTime.year fst] in *. apply Hyear.
    unfold first_four_digit_year, DateTime.epoch_ordinal in *.
    Z.div_mod_to_equations. lia.
Qed.

Lemma schedule_time_reads_back_witness :
  exists s,
    convert_timestamp (PInt 1700000000) = Ok (PStr s)
    /\ timegm (parse_utc s) = 1700000000.
Proof.
  apply schedule_time_reads_back.
  - lia.
  - unfold first_four_digit_year, max_timestamp. lia.
Defined.

(** ** Which raw records the normalizer keeps *)

Section Shape.

Lemma walkable_empty steps : walkable steps empty_dict = true.
Proof. destruct steps as [|[[] key] rest]; reflexivity. Qed.

Lemma walkable_get o key dflt o' rest :
  py_get o key dflt = Ok o' -> rest = [] \/ dflt = empty_dict ->
  walkable ((false, key) :: rest) o = walkable rest o'.
Proof.
  intros (entries & -> & ->)%py_get_Ok Hrest. cbn.
  destruct (dict_lookup key entries) as [w|]; cbn; [done|].
  destruct Hrest as [->| ->]; [done|]. symmetry. apply walkable_empty.
Qed.

Lemma walkable_get_raise o key dflt e rest :
  py_get o key dflt = Raise e -> walkable ((false, key) :: rest) o = false.
Proof. destruct o; cbn; done. Qed.

Lemma walkable_guarded_get o key dflt o' rest :
  (if truthy o then py_get o key dflt else Ok dflt) = Ok o' ->
  rest = [] \/ dflt = empty_dict ->
  walkable ((true, key) :: rest) o = walkable rest o'.
Proof.
  cbn [walkable andb]. destruct (truthy o) eqn:Htruthy; cbn [negb].
  - intros Hget Hrest. apply (walkable_get _ _ _ _ rest) in Hget; [|done].
    cbn [walkable andb] in Hget. exact Hget.
  - intros [= <-] [->| ->]; [done|]. symmetry. apply walkable_empty.
Qed.

Lemma walkable_guarded_get_raise o key dflt e rest :
  (if truthy o then py_get o key dflt else Ok dflt) = Raise e ->
  walkable ((true, key) :: rest) o = false.
Proof.
  cbn [walkable andb]. destruct (truthy o); cbn [negb]; [|discriminate].
  destruct o; cbn; done.
Qed.

Lemma walkable_relax steps v : walkable steps v = true -> walkable (relax steps) v = true.
Proof.
  revert v. induction steps as [|[guarded key] rest IH]; intros v; [done|].
  cbn [relax map snd walkable andb].
  destruct (truthy v); cbn [negb]; [|done].
  rewrite andb_false_r.
  destruct v as [| | | | | |entries]; try done.
  destruct (dict_lookup key entries); [apply IH|done].
Qed.

Ltac read_chain :=
  repeat match goal with
         | Hx : py_get ?o ?k empty_dict = Ok _ |- context [field_or_null (?k :: _ :: _) ?o] =>
             rewrite (py_get_step _ _ _ _ Hx) by done
         end;
  now apply py_get_last.

Ltac falsify :=
  repeat (rewrite andb_false_r || rewrite andb_false_l); reflexivity.

(** One bind of the [try] block: when it raises, the path through it is not
    walkable; when it succeeds, the paths move one step on. *)
Ltac read_step :=
  lazymatch goal with
  | |- raises (mbind _ (py_get ?o ?k ?d)) = _ =>
      let x := fresh "x" in
      let e := fresh "e" in
      let H := fresh "Hget" in
      destruct (py_get o k d) as [x|e] eqn:H;
      [ repeat rewrite (walkable_get _ _ _ _ _ H)
          by (first [left; reflexivity | right; reflexivity]);
        cbn [mbind exc_bind]
      | rewrite (walkable_get_raise _ _ _ _ _ H); cbn [mbind exc_bind raises]; falsify ]
  | |- raises (mbind _ (if truthy ?o then py_get ?o ?k ?d else Ok ?d)) = _ =>
      let x := fresh "x" in
      let e := fresh "e" in
      let H := fresh "Hget" in
      destruct (if truthy o then py_get o k d else Ok d) as [x|e] eqn:H;
      [ repeat rewrite (walkable_guarded_get _ _ _ _ _ H)
          by (first [left; reflexivity | right; reflexivity]);
        cbn [mbind exc_bind]
      | rewrite (walkable_guarded_get_raise _ _ _ _ _ H);
        cbn [mbind exc_bind raises]; falsify ]
  end.

(** The [try] block raises exactly on the raw records that are not
    well-shaped. *)
Lemma simplify_flight_raises flight_type flight :
  raises (simplify_flight flight_type flight) = negb (well_shaped flight_type flight).
Proof.
  unfold simplify_flight, well_shaped, shape_paths, scheduled_path.
  destruct (String.eqb flight_type "arrival"); cbn [app forallb].
  - do 21 read_step.
    match goal with
    | |- raises (mbind _ (convert_timestamp ?ts)) = _ =>
        assert (ts = field_or_null ["time"; "scheduled"; "arrival"] flight) as <-
          by read_chain;
        cbn [walkable andb]; now destruct (convert_timestamp ts)
    end.
  - do 21 read_step.
    match goal with
    | |- raises (mbind _ (convert_timestamp ?ts)) = _ =>
        assert (ts = field_or_null ["time"; "scheduled"; "departure"] flight) as <-
          by read_chain;
        cbn [walkable andb]; now destruct (convert_timestamp ts)
    end.
Qed.

End Shape.

Lemma well_shaped_kept flight_type flight :
  well_shaped flight_type flight = true ->
  exists record scheduledTime,
    simplify_flight flight_type flight = Ok record
    /\ convert_timestamp (field_or_null (scheduled_path flight_type) flight) = Ok scheduledTime
    /\ record = flight_record flight_type flight scheduledTime
    /\ is_flight_record flight_type flight record.
Proof.
  intros Hshape. pose proof (simplify_flight_raises flight_type flight) as Hraises.
  rewrite Hshape in Hraises.
  destruct (simplify_flight flight_type flight) as [record|e] eqn:Hflight; [|discriminate].
  destruct (simplify_flight_Ok _ _ _ Hflight) as (t & Hconv & ->).
  exists (flight_record flight_type flight t), t.
  repeat split; try done. now apply flight_record_is_flight_record.
Qed.

Lemma truthy_non_object_not_well_shaped flight_type flight :
  has_truthy_non_object flight_type flight = true -> well_shaped flight_type flight = false.
Proof.
  unfold has_truthy_non_object, well_shaped. intros Hbad%negb_true_iff.
  destruct (forallb (fun steps => walkable steps flight) (shape_paths flight_type))
    eqn:Hstrict; [|done].
  rewrite forallb_forall in Hstrict.
  assert (Hrelaxed : forallb (fun steps => walkable (relax steps) flight)
                       (shape_paths flight_type) = true).
  { apply forallb_forall. intros steps Hin. now apply walkable_relax, Hstrict. }
  congruence.
Qed.

(** C1 (as amended): [simplify_flight_data] is total, for every list of raw
    records and every direction it returns a list and nothing is raised.
    Every record it returns is a FlightRecord read from one of the raw
    records: the fixed field set, the direction as type, and null (no
    default, no zero) in every field whose nested path is absent.  A batch
    of well-shaped raw records (each an object in which every container the
    normalizer reads is absent or an object, or falsy where the read is
    guarded, with a time that is absent, falsy or convertible) yields one
    FlightRecord per raw record, in order, each the record of the
    optional-chained reading; so do the empty object and every object
    without the six optional sub-objects, whose optional fields are all
    null.  A raw record with a truthy value that is not an object where a
    container is read is dropped. *)
Theorem normalizer_total_on_well_shaped_records
    (flight_type : string) (flights : list pyval) :
  (forall record,
     In record (simplify_flight_data flights flight_type) ->
     exists flight, In flight flights /\ is_flight_record flight_type flight record)
  /\ (Forall (fun flight => well_shaped flight_type flight = true) flights ->
      Forall2
        (fun flight record =>
           is_flight_record flight_type flight record
           /\ exists scheduledTime,
                convert_timestamp (field_or_null (scheduled_path flight_type) flight)
                = Ok scheduledTime
                /\ record = flight_record flight_type flight scheduledTime)
        flights (simplify_flight_data flights flight_type))
  /\ (forall flight,
        has_truthy_non_object flight_type flight = true ->
        simplify_flight_data [flight] flight_type = [])
  /\ (forall entries,
        lacks_optional_keys entries ->
        well_shaped flight_type (PDict entries) = true
        /\ simplify_flight_data [PDict entries] flight_type = [blank_record flight_type])
  /\ simplify_flight_data [PDict []] flight_type = [blank_record flight_type]
  /\ is_flight_record flight_type (PDict []) (blank_record flight_type).
Proof.
  assert (Hblank : forall entries, lacks_optional_keys entries ->
            simplify_flight_data [PDict entries] flight_type = [blank_record flight_type]).
  { intros entries Hlacks.
    now rewrite simplify_flight_data_cons, (simplify_flight_blank _ _ Hlacks). }
  split; [|split; [|split; [|split; [|split]]]].
  - intros record (flight & Hin & Hok)%simplify_flight_data_In.
    exists flight. split; [done|].
    apply simplify_flight_Ok in Hok as (t & Hconv & ->).
    now apply flight_record_is_flight_record.
  - induction 1 as [|flight flights Hshape _ IH]; [constructor|].
    destruct (well_shaped_kept _ _ Hshape) as (record & t & Hok & Hconv & -> & Hrecord).
    rewrite simplify_flight_data_cons, Hok. constructor; [|exact IH]. eauto.
  - intros flight Hbad%truthy_non_object_not_well_shaped.
    pose proof (simplify_flight_raises flight_type flight) as Hraises.
    rewrite Hbad in Hraises. rewrite simplify_flight_data_cons.
    now destruct (simplify_flight flight_type flight).
  - intros entries Hlacks. split; [|now apply Hblank].
    pose proof (simplify_flight_raises flight_type (PDict entries)) as Hraises.
    rewrite (simplify_flight_blank _ _ Hlacks) in Hraises. cbn in Hraises.
    now destruct (well_shaped flight_type (PDict entries)).
  - apply Hblank, empty_object_lacks_optional_keys.
  - pose proof (simplify_flight_blank flight_type [] empty_object_lacks_optional_keys) as Hok.
    apply simplify_flight_Ok in Hok as (t & Hconv & ->).
    now apply flight_record_is_flight_record.
Qed.

Lemma normalizer_total_on_well_shaped_records_witness :
  Forall2
    (fun flight record =>
       is_flight_record "arrival" flight record
       /\ exists scheduledTime,
            convert_timestamp (field_or_null (scheduled_path "arrival") flight)
            = Ok scheduledTime
            /\ record = flight_record "arrival" flight scheduledTime)
    [sample_A1; PDict [("airline", PInt 0)]; sample_A2]
    (simplify_flight_data [sample_A1; PDict [("airline", PInt 0)]; sample_A2] "arrival").
Proof.
  refine (proj1 (proj2 (normalizer_total_on_well_shaped_records "arrival"
                          [sample_A1; PDict [("airline", PInt 0)]; sample_A2])) _).
  repeat constructor.
Defined.

(** ** The text of a schedule time *)

Section TimestampText.

Import DateTime.

(** From year 1000 on, [strftime] prints the zero-padded text. *)
Lemma strftime_utc_text dt :
  valid_datetime dt -> 1000 <= year dt -> strftime dt = utc_text dt.
Proof.
  intros (Hy & Hm & Hd & Hh & Hmi & Hs) Hy'.
  pose proof (month_length_le (year dt) (month dt)) as Hday.
  unfold strftime, utc_text.
  rewrite (decimal_four_digits (year dt)) by lia.
  now rewrite !two_digits_two_chars by lia.
Qed.

Lemma fromtimestamp_utc_four_digit_year n dt :
  first_four_digit_year <= n -> fromtimestamp_utc (PInt n) = Ok dt -> 1000 <= year dt.
Proof.
  intros Hn Hdt. unfold fromtimestamp_utc, time_t_of_int in Hdt.
  destruct ((time_t_min <=? n) && (n <=? time_t_max)); [|done].
  cbn [mbind exc_bind] in Hdt. unfold gmtime in Hdt.
  destruct ((-67768040609740800 <=? n) && (n <=? 67768036191676799)); [|done].
  pose proof (ord2ymd_year_four_digits (n / 86400 + epoch_ordinal)) as Hyear.
  destruct (ord2ymd (n / 86400 + epoch_ordinal)) as [[y m] d].
  cbn [mbind exc_bind year] in Hdt.
  destruct ((1 <=? y) && (y <=? 9999)); [|done]. injection Hdt as <-.
  cbn [year fst] in *. apply Hyear.
  unfold first_four_digit_year, epoch_ordinal in *. Z.div_mod_to_equations. lia.
Qed.

End TimestampText.

(** C7 (as amended): an absent, null or zero source timestamp converts to
    an absent output and never to a date of 1970; 1700000000 converts to
    [2023-11-14 22:13:20 UTC]; every nonzero integer of UNIX seconds inside
    the range of [datetime] converts to the string printed for the valid UTC
    datetime that denotes exactly that instant, the result being a function
    of the input alone, and from year 1000 on that string is the zero-padded
    text [YYYY-MM-DD HH:MM:SS UTC] of the datetime; for an integer outside
    the range the conversion raises. *)
Theorem convert_timestamp_rule :
  convert_timestamp PNone = Ok PNone
  /\ convert_timestamp (PInt 0) = Ok PNone
  /\ (forall scheduled key,
        dict_lookup key scheduled = None ->
        py_get (PDict scheduled) key PNone ≫= convert_timestamp = Ok PNone)
  /\ convert_timestamp (PInt 1700000000) = Ok (PStr "2023-11-14 22:13:20 UTC")
  /\ (forall n,
        n <> 0 -> min_timestamp <= n <= max_timestamp ->
        exists dt,
          DateTime.fromtimestamp_utc (PInt n) = Ok dt
          /\ valid_datetime dt
          /\ timegm dt = n
          /\ convert_timestamp (PInt n) = Ok (PStr (DateTime.strftime dt)))
  /\ (forall n,
        n <> 0 -> first_four_digit_year <= n <= max_timestamp ->
        exists dt,
          valid_datetime dt
          /\ timegm dt = n
          /\ convert_timestamp (PInt n) = Ok (PStr (utc_text dt)))
  /\ (forall n,
        n < min_timestamp \/ max_timestamp < n ->
        raises (convert_timestamp (PInt n)) = true).
Proof.
  assert (Hgeneral : forall n,
            n <> 0 -> min_timestamp <= n <= max_timestamp ->
            exists dt,
              DateTime.fromtimestamp_utc (PInt n) = Ok dt
              /\ valid_datetime dt
              /\ timegm dt = n
              /\ convert_timestamp (PInt n) = Ok (PStr (DateTime.strftime dt))).
  { intros n Hnz Hrange.
    destruct (fromtimestamp_utc_int n Hrange) as (dt & Hdt & Hvalid & Hinv).
    exists dt. split; [done|]. split; [done|]. split; [done|].
    unfold convert_timestamp. cbn [truthy].
    destruct (Z.eqb_spec n 0); [done|]. cbn [negb]. now rewrite Hdt. }
  split; [reflexivity|]. split; [reflexivity|].
  split; [|split; [reflexivity|split; [exact Hgeneral|split]]].
  - intros scheduled key Habsent. cbn. now rewrite Habsent.
  - intros n Hnz Hrange.
    assert (Hrange' : min_timestamp <= n <= max_timestamp).
    { unfold first_four_digit_year, min_timestamp in *. lia. }
    destruct (Hgeneral n Hnz Hrange') as (dt & Hdt & Hvalid & Hinv & Hconv).
    exists dt. split; [done|]. split; [done|].
    rewrite Hconv, strftime_utc_text; [done|done|].
    apply (fromtimestamp_utc_four_digit_year n); [lia|done].
  - apply convert_timestamp_out_of_range_aux.
Qed.

Lemma convert_timestamp_rule_witness :
  exists dt,
    valid_datetime dt
    /\ timegm dt = 1700000000
    /\ convert_timestamp (PInt 1700000000) = Ok (PStr (utc_text dt)).
Proof.
  refine (proj1 (proj2 (proj2 (proj2 (proj2 (proj2 convert_timestamp_rule)))))
            1700000000 _ _).
  - lia.
  - unfold first_four_digit_year, max_timestamp. lia.
Defined.

(** The first second of the year 10000 is a nonzero integer of UNIX seconds
    for which the conversion gives no string: it raises. *)
Lemma timestamp_beyond_calendar_gives_no_string :
  convert_timestamp (PInt 253402300800) = Raise ValueError
  /\ ~ (exists s, convert_timestamp (PInt 253402300800) = Ok (PStr s)).
Proof.
  split; [vm_compute; reflexivity|]. intros [s H]. vm_compute in H. discriminate.
Qed.
